(** * gestionnaire-backend: the four API routes over the two tables

    A shallow embedding of [src/server.js] and of its sibling
    [src/unnamed/part_000].  Both files declare the same tables and the same
    four Express routes; they differ in one place only, the body of
    [app.post('/api/saveData')]: the sibling first inserts a placeholder
    account row, [server.js] does not.

    What is modelled, and where it comes from:
    - the database is the pair of tables created by [setupDatabaseTables]:
      [users] keyed by [username], [user_data] keyed by [username] with a
      foreign key into [users], both keys and the password of type
      VARCHAR(255), the two document columns of type JSONB;
    - every [pool.query] of the handlers is a function on that state, named
      after its SQL text, which either returns or throws (the handlers'
      [try]/[catch] turns a throw into status 500);
    - the handlers bind [username], [password], [personnes] and [equipes] to
      the parameters as they come from [req.body]; what reaches a column is
      what the driver sends for such a value and what the engine makes of
      it: a text parameter that contains U+0000 is refused, a string for a
      VARCHAR(255) column is kept, cut or refused by its length, and a value
      for a JSONB column is sent as [null], as the text of a boolean, number
      or string, as an array literal for an array and as JSON text for an
      object, and read by the engine as JSON text;
    - [req.body] is a record of optional fields ([None] is JavaScript's
      [undefined]); [username] and [password] are strings, [personnes] and
      [equipes] arbitrary JSON values;
    - a handler maps a state and a request to the response it sends and the
      state it leaves.

    Conventions: one element of a string is one character, out of the 256
    of a one-byte repertoire (a database whose encoding is LATIN1); requests
    are handled one at a time; [console.log] is not part of the state. *)

From Stdlib Require Import ZArith QArith Ascii.
From stdpp Require Import base option list strings gmap fin_maps.

Local Open Scope Z_scope.
Local Open Scope string_scope.

(** ** JSON values as the handlers see them after [express.json()]

    Numbers are rationals, objects finite maps from member names to
    values. *)

#[local] Set Warnings "-register-all".

Inductive JSON : Type :=
| JNull
| JBool (b : bool)
| JNumber (q : Q)
| JString (s : string)
| JArray (items : list JSON)
| JObject (members : gmap string JSON).

(** JavaScript truthiness of a JSON value: [null], [false], zero and the
    empty string are falsy; every array and object is truthy. *)
Definition truthy (v : JSON) : bool :=
  match v with
  | JNull => false
  | JBool b => b
  | JNumber q => negb (Z.eqb (Qnum q) 0)
  | JString s => negb (String.eqb s "")
  | JArray _ => true
  | JObject _ => true
  end.

(** [a || b] on JSON values. *)
Definition js_or (a b : JSON) : JSON := if truthy a then a else b.

(** [!x] on an optional string field: [undefined] and [""] are falsy. *)
Definition js_not (x : option string) : bool :=
  match x with
  | None => true
  | Some s => String.eqb s ""
  end.

(** [x === undefined] on an optional field. *)
Definition is_undefined {A : Type} (x : option A) : bool :=
  match x with
  | None => true
  | Some _ => false
  end.

(** ** The database of [setupDatabaseTables] *)

(** A row of [user_data] without its key; SQL NULL in a JSONB column reads
    back as JavaScript [null]. *)
Record user_data_row : Type := Row {
  row_personnes : JSON;
  row_equipes : JSON
}.

(** [users]: username (PRIMARY KEY) to password (NOT NULL).
    [user_data]: username (PRIMARY KEY REFERENCES users) to the two JSONB
    columns. *)
Record DB : Type := Db {
  users : gmap string string;
  user_data : gmap string user_data_row
}.

Definition empty_db : DB := Db ∅ ∅.

(** Errors the engine raises on the statements below. *)
Inductive pg_error : Type :=
| not_null_violation
| unique_violation
| foreign_key_violation
| string_data_right_truncation
| character_not_in_repertoire
| invalid_text_representation
| untranslatable_character.

(** Outcome of an awaited [pool.query]. *)
Inductive outcome (A : Type) : Type :=
| Returned (a : A)
| Thrown (e : pg_error).
Arguments Returned {A} a.
Arguments Thrown {A} e.

(** Sequencing inside one statement: the first throw ends it. *)
#[global] Instance outcome_bind : MBind outcome := λ A B f x,
  match x with
  | Returned a => f a
  | Thrown e => Thrown e
  end.

(** *** Text parameters *)

(** Whether a string contains the character U+0000. *)
Fixpoint has_nul (s : string) : bool :=
  match s with
  | EmptyString => false
  | String c s' => Ascii.eqb c Ascii.zero || has_nul s'
  end.

(** A string bound to a text parameter: the engine refuses U+0000. *)
Definition text_param (s : string) : outcome string :=
  if has_nul s then Thrown character_not_in_repertoire else Returned s.

(** Whether a string consists of spaces only. *)
Fixpoint all_spaces (s : string) : bool :=
  match s with
  | EmptyString => true
  | String c s' => Ascii.eqb c " "%char && all_spaces s'
  end.

(** A string assigned to a VARCHAR(255) column: kept if it has at most 255
    characters, cut to 255 if the excess is all spaces, refused
    otherwise. *)
Definition varchar_255 (s : string) : outcome string :=
  if (String.length s <=? 255)%nat then Returned s
  else if all_spaces (String.substring 255 (String.length s - 255) s)
       then Returned (String.substring 0 255 s)
       else Thrown string_data_right_truncation.

(** *** JSON text as the engine reads it into a JSONB column *)

Definition is_space (c : ascii) : bool :=
  Ascii.eqb c " "%char || Ascii.eqb c "009"%char
  || Ascii.eqb c "010"%char || Ascii.eqb c "013"%char.

Fixpoint skip_spaces (s : string) : string :=
  match s with
  | String c s' => if is_space c then skip_spaces s' else s
  | EmptyString => EmptyString
  end.

Definition digit_of (c : ascii) : option nat :=
  let n := nat_of_ascii c in
  if (48 <=? n)%nat && (n <=? 57)%nat then Some (n - 48)%nat else None.

Definition hex_of (c : ascii) : option nat :=
  let n := nat_of_ascii c in
  if (48 <=? n)%nat && (n <=? 57)%nat then Some (n - 48)%nat
  else if (97 <=? n)%nat && (n <=? 102)%nat then Some (n - 87)%nat
  else if (65 <=? n)%nat && (n <=? 70)%nat then Some (n - 55)%nat
  else None.

(** The digits a string starts with, and the rest. *)
Fixpoint take_digits (s : string) : list nat * string :=
  match s with
  | String c s' =>
      match digit_of c with
      | Some d => let '(ds, rest) := take_digits s' in (d :: ds, rest)
      | None => ([], s)
      end
  | EmptyString => ([], EmptyString)
  end.

Definition digits_value (ds : list nat) : Z :=
  fold_left (λ acc d, 10 * acc + Z.of_nat d) ds 0.

(** The rational [mantissa * 10 ^ scale], in lowest terms. *)
Definition decimal (mantissa scale : Z) : Q :=
  if (0 <=? scale)%Z then Qmake (mantissa * 10 ^ scale) 1
  else Qred (Qmake mantissa (Z.to_pos (10 ^ (- scale)))).

(** A JSON number: an optional minus, an integer part without leading
    zero, an optional fraction, an optional exponent. *)
Definition read_number (s : string) : outcome (JSON * string) :=
  let '(negative, s1) :=
    match s with
    | String "-"%char rest => (true, rest)
    | _ => (false, s)
    end in
  let '(int_part, s2) := take_digits s1 in
  match int_part with
  | [] => Thrown invalid_text_representation
  | O :: _ :: _ => Thrown invalid_text_representation
  | _ =>
      let '(fraction, s3) :=
        match s2 with
        | String "."%char rest =>
            let '(ds, rest') := take_digits rest in (Some ds, rest')
        | _ => (None, s2)
        end in
      let '(exponent, s4) :=
        match s3 with
        | String c rest =>
            if Ascii.eqb c "e"%char || Ascii.eqb c "E"%char then
              let '(minus, rest1) :=
                match rest with
                | String "-"%char r => (true, r)
                | String "+"%char r => (false, r)
                | _ => (false, rest)
                end in
              let '(ds, rest2) := take_digits rest1 in
              (Some (minus, ds), rest2)
            else (None, s3)
        | EmptyString => (None, s3)
        end in
      match fraction, exponent with
      | Some [], _ => Thrown invalid_text_representation
      | _, Some (_, []) => Thrown invalid_text_representation
      | _, _ =>
          let frac_digits := default [] fraction in
          let mantissa := digits_value (int_part ++ frac_digits) in
          let power :=
            match exponent with
            | Some (true, ds) => (- digits_value ds)%Z
            | Some (false, ds) => digits_value ds
            | None => 0%Z
            end in
          let q := decimal mantissa (power - Z.of_nat (length frac_digits)) in
          Returned (JNumber (if negative then Qopp q else q), s4)
      end
  end.

(** The characters of a JSON string after its opening quote, up to the
    closing quote, and the rest.  A raw control character is refused; so
    are the escape of U+0000, which a JSONB column does not take, and the
    escape of a character beyond U+00FF, which the engine cannot translate
    to the one-byte encoding of the database. *)
Fixpoint read_chars (s : string) : outcome (string * string) :=
  match s with
  | EmptyString => Thrown invalid_text_representation
  | String c s' =>
      if Ascii.eqb c "034"%char then Returned (EmptyString, s')
      else if Ascii.eqb c "\"%char then
        match s' with
        | String e s'' =>
            let plain (x : ascii) : outcome (string * string) :=
              '(str, rest) ← read_chars s''; Returned (String x str, rest) in
            if Ascii.eqb e "034"%char then plain "034"%char
            else if Ascii.eqb e "\"%char then plain "\"%char
            else if Ascii.eqb e "/"%char then plain "/"%char
            else if Ascii.eqb e "b"%char then plain "008"%char
            else if Ascii.eqb e "f"%char then plain "012"%char
            else if Ascii.eqb e "n"%char then plain "010"%char
            else if Ascii.eqb e "r"%char then plain "013"%char
            else if Ascii.eqb e "t"%char then plain "009"%char
            else if Ascii.eqb e "u"%char then
              match s'' with
              | String h1 (String h2 (String h3 (String h4 s4))) =>
                  match hex_of h1, hex_of h2, hex_of h3, hex_of h4 with
                  | Some a, Some b, Some c', Some d =>
                      let n := (((a * 16 + b) * 16 + c') * 16 + d)%nat in
                      if (n =? 0)%nat then Thrown untranslatable_character
                      else if (n <? 256)%nat then
                        '(str, rest) ← read_chars s4;
                        Returned (String (ascii_of_nat n) str, rest)
                      else Thrown untranslatable_character
                  | _, _, _, _ => Thrown invalid_text_representation
                  end
              | _ => Thrown invalid_text_representation
              end
            else Thrown invalid_text_representation
        | EmptyString => Thrown invalid_text_representation
        end
      else if (nat_of_ascii c <? 32)%nat then Thrown invalid_text_representation
      else '(str, rest) ← read_chars s'; Returned (String c str, rest)
  end.

(** Whether [s] starts with [word]; then the rest. *)
Fixpoint read_word (word s : string) : option string :=
  match word, s with
  | EmptyString, _ => Some s
  | String w word', String c s' =>
      if Ascii.eqb w c then read_word word' s' else None
  | String _ _, EmptyString => None
  end.

(** One JSON value at the head of a text, and the rest.  Every call spends
    one unit of [fuel] and is followed by at least one character read, so
    twice the length of the text is enough. *)
Fixpoint read_value (fuel : nat) (s : string) : outcome (JSON * string) :=
  match fuel with
  | O => Thrown invalid_text_representation
  | S fuel' =>
      match skip_spaces s with
      | EmptyString => Thrown invalid_text_representation
      | String c rest =>
          if Ascii.eqb c "{"%char then
            match skip_spaces rest with
            | String "}"%char rest' => Returned (JObject ∅, rest')
            | _ => read_members fuel' ∅ rest
            end
          else if Ascii.eqb c "["%char then
            match skip_spaces rest with
            | String "]"%char rest' => Returned (JArray [], rest')
            | _ => read_items fuel' [] rest
            end
          else if Ascii.eqb c "034"%char then
            '(str, rest') ← read_chars rest; Returned (JString str, rest')
          else
            match read_word "true" (String c rest),
                  read_word "false" (String c rest),
                  read_word "null" (String c rest) with
            | Some rest', _, _ => Returned (JBool true, rest')
            | _, Some rest', _ => Returned (JBool false, rest')
            | _, _, Some rest' => Returned (JNull, rest')
            | None, None, None => read_number (String c rest)
            end
      end
  end
with read_items (fuel : nat) (seen : list JSON) (s : string)
  : outcome (JSON * string) :=
  match fuel with
  | O => Thrown invalid_text_representation
  | S fuel' =>
      '(v, rest) ← read_value fuel' s;
      match skip_spaces rest with
      | String ","%char rest' => read_items fuel' (v :: seen) rest'
      | String "]"%char rest' => Returned (JArray (rev (v :: seen)), rest')
      | _ => Thrown invalid_text_representation
      end
  end
with read_members (fuel : nat) (seen : gmap string JSON) (s : string)
  : outcome (JSON * string) :=
  match fuel with
  | O => Thrown invalid_text_representation
  | S fuel' =>
      match skip_spaces s with
      | String c rest =>
          if Ascii.eqb c "034"%char then
            '(k, rest1) ← read_chars rest;
            match skip_spaces rest1 with
            | String ":"%char rest2 =>
                '(v, rest3) ← read_value fuel' rest2;
                match skip_spaces rest3 with
                | String ","%char rest' =>
                    read_members fuel' (<[k := v]> seen) rest'
                | String "}"%char rest' =>
                    Returned (JObject (<[k := v]> seen), rest')
                | _ => Thrown invalid_text_representation
                end
            | _ => Thrown invalid_text_representation
            end
          else Thrown invalid_text_representation
      | EmptyString => Thrown invalid_text_representation
      end
  end.

(** The engine's reading of a text into a JSONB column: one JSON value and
    nothing after it; of two members of an object with the same name the
    last is kept. *)
Definition jsonb_in (text : string) : outcome JSON :=
  '(v, rest) ← read_value (2 * String.length text + 2) text;
  match skip_spaces rest with
  | EmptyString => Returned v
  | String _ _ => Thrown invalid_text_representation
  end.

(** Whether no string and no member name inside a value contains
    U+0000. *)
Fixpoint nul_free (v : JSON) : bool :=
  match v with
  | JString s => negb (has_nul s)
  | JArray items => forallb nul_free items
  | JObject members =>
      map_fold (λ k v' ok, negb (has_nul k) && nul_free v' && ok) true members
  | _ => true
  end.

(** A JavaScript value bound to a JSONB parameter, as it arrives in the
    column.  The handlers pass the value of [req.body] as it is, and the
    driver sends [undefined] and [null] as SQL NULL, a boolean or a number
    as its text, a string as that very text, an array as an array literal
    and an object as its JSON text.  The engine reads the text as JSON: the
    text of a boolean or number and the JSON text of an object give the
    value back, unless the object holds U+0000, which a JSONB column
    refuses; the literal [{}] of the empty array reads as the empty
    object; the literal of a non-empty array, whose items are [NULL],
    quoted strings or nested literals without a colon, is no JSON text. *)
Definition jsonb_param (v : option JSON) : outcome JSON :=
  match v with
  | None => Returned JNull
  | Some JNull => Returned JNull
  | Some (JBool b) => Returned (JBool b)
  | Some (JNumber q) => Returned (JNumber q)
  | Some (JString s) => s ← text_param s; jsonb_in s
  | Some (JArray []) => Returned (JObject ∅)
  | Some (JArray (_ :: _)) => Thrown invalid_text_representation
  | Some (JObject members) =>
      if nul_free (JObject members) then Returned (JObject members)
      else Thrown untranslatable_character
  end.

(** *** The statements of the handlers *)

(** [SELECT * FROM users WHERE username = $1] *)
Definition select_users_by_username (db : DB) (p1 : option string)
  : outcome (list (string * string)) :=
  match p1 with
  | None => Returned []
  | Some u =>
      u ← text_param u;
      match users db !! u with
      | Some pw => Returned [(u, pw)]
      | None => Returned []
      end
  end.

(** [SELECT * FROM users WHERE username = $1 AND password = $2] *)
Definition select_users_by_credentials (db : DB) (p1 p2 : option string)
  : outcome (list (string * string)) :=
  match p1, p2 with
  | Some u, Some pw =>
      u ← text_param u;
      pw ← text_param pw;
      match users db !! u with
      | Some stored =>
          Returned (if String.eqb stored pw then [(u, stored)] else [])
      | None => Returned []
      end
  | Some u, None => u ← text_param u; Returned []
  | None, Some pw => pw ← text_param pw; Returned []
  | None, None => Returned []
  end.

(** [INSERT INTO users (username, password) VALUES ($1, $2)] *)
Definition insert_users (db : DB) (p1 p2 : option string) : outcome DB :=
  match p1, p2 with
  | Some u, Some pw =>
      u ← text_param u;
      pw ← text_param pw;
      u ← varchar_255 u;
      pw ← varchar_255 pw;
      match users db !! u with
      | Some _ => Thrown unique_violation
      | None => Returned (Db (<[u := pw]> (users db)) (user_data db))
      end
  | _, _ => Thrown not_null_violation
  end.

(** [INSERT INTO users (username, password) VALUES ($1, $2)
     ON CONFLICT (username) DO NOTHING] *)
Definition insert_users_on_conflict_do_nothing
  (db : DB) (p1 p2 : option string) : outcome DB :=
  match p1, p2 with
  | Some u, Some pw =>
      u ← text_param u;
      pw ← text_param pw;
      u ← varchar_255 u;
      pw ← varchar_255 pw;
      match users db !! u with
      | Some _ => Returned db
      | None => Returned (Db (<[u := pw]> (users db)) (user_data db))
      end
  | _, _ => Thrown not_null_violation
  end.

(** [INSERT INTO user_data (username, personnes, equipes) VALUES ($1, $2, $3)
     ON CONFLICT (username) DO UPDATE SET personnes = $2, equipes = $3]

    An existing row is updated in both columns; a new row is inserted only
    if its key passes the foreign key into [users]. *)
Definition upsert_user_data
  (db : DB) (p1 : option string) (p2 p3 : option JSON) : outcome DB :=
  match p1 with
  | None => Thrown not_null_violation
  | Some u =>
      u ← text_param u;
      personnes ← jsonb_param p2;
      equipes ← jsonb_param p3;
      u ← varchar_255 u;
      let row := Row personnes equipes in
      match user_data db !! u with
      | Some _ => Returned (Db (users db) (<[u := row]> (user_data db)))
      | None =>
          match users db !! u with
          | Some _ => Returned (Db (users db) (<[u := row]> (user_data db)))
          | None => Thrown foreign_key_violation
          end
      end
  end.

(** [SELECT personnes, equipes FROM user_data WHERE username = $1] *)
Definition select_user_data (db : DB) (p1 : option string)
  : outcome (list user_data_row) :=
  match p1 with
  | None => Returned []
  | Some u =>
      u ← text_param u;
      match user_data db !! u with
      | Some r => Returned [r]
      | None => Returned []
      end
  end.

(** ** Requests and responses *)

(** [req.body] after [express.json()]: the fields the handlers destructure. *)
Record body : Type := Body {
  username : option string;
  password : option string;
  personnes : option JSON;
  equipes : option JSON
}.

(** What [res.status(s).json(j)] sends. *)
Inductive payload : Type :=
| message (m : string)
| data (personnes equipes : JSON).

Record response : Type := Response {
  status : Z;
  json : payload
}.

(** ** The routes shared by both files *)

(** [app.post('/api/register')] *)
Definition register (db : DB) (req : body) : response * DB :=
  let username := username req in
  let password := password req in
  if js_not username || js_not password then
    (Response 400 (message "Nom d'utilisateur et mot de passe requis."), db)
  else
    match select_users_by_username db username with
    | Thrown _ =>
        (Response 500 (message "Erreur serveur lors de l'inscription."), db)
    | Returned existingUser =>
        if (0 <? length existingUser)%nat then
          (Response 409 (message "Nom d'utilisateur déjà pris."), db)
        else
          match insert_users db username password with
          | Returned db' =>
              (Response 201 (message "Inscription réussie."), db')
          | Thrown _ =>
              (Response 500 (message "Erreur serveur lors de l'inscription."),
               db)
          end
    end.

(** [app.post('/api/login')] *)
Definition login (db : DB) (req : body) : response * DB :=
  let username := username req in
  let password := password req in
  if js_not username || js_not password then
    (Response 400 (message "Nom d'utilisateur et mot de passe requis."), db)
  else
    match select_users_by_credentials db username password with
    | Thrown _ =>
        (Response 500 (message "Erreur serveur lors de la connexion."), db)
    | Returned result =>
        if (0 <? length result)%nat then
          (Response 200 (message "Connexion réussie."), db)
        else
          (Response 401
             (message "Nom d'utilisateur ou mot de passe incorrect."), db)
    end.

(** [app.get('/api/loadData/:username')]; [req.params.username] is a
    string, and [row0] is [result.rows[0]]. *)
Definition loadData (db : DB) (param : string) : response * DB :=
  let username := Some param in
  if js_not username then
    (Response 400 (message "Nom d'utilisateur requis."), db)
  else
    match select_user_data db username with
    | Thrown _ =>
        (Response 500
           (message "Erreur serveur lors du chargement des données."), db)
    | Returned (row0 :: _) =>
        (Response 200 (data (js_or (row_personnes row0) (JArray []))
                            (js_or (row_equipes row0) (JArray []))), db)
    | Returned [] => (Response 200 (data (JArray []) (JArray [])), db)
    end.

(** ** [app.post('/api/saveData')], one definition per file *)

Module ServerJs.

(** [src/server.js]: validation, then the upsert alone.  (The second copy
    of the [try] block that follows the handler in the file stands outside
    every function and belongs to no route.) *)
Definition saveData (db : DB) (req : body) : response * DB :=
  let username := username req in
  let personnes := personnes req in
  let equipes := equipes req in
  if js_not username || is_undefined personnes || is_undefined equipes then
    (Response 400
       (message "Nom d'utilisateur et données (personnes, equipes) requis."),
     db)
  else
    match upsert_user_data db username personnes equipes with
    | Returned db' =>
        (Response 200 (message "Données sauvegardées avec succès."), db')
    | Thrown _ =>
        (Response 500
           (message "Erreur serveur lors de la sauvegarde des données."), db)
    end.

End ServerJs.

Module Part000.

(** [src/unnamed/part_000]: validation, then the placeholder account, then
    the upsert.  The two statements are not in a transaction: a throw of
    the second leaves the effect of the first. *)
Definition saveData (db : DB) (req : body) : response * DB :=
  let username := username req in
  let personnes := personnes req in
  let equipes := equipes req in
  if js_not username || is_undefined personnes || is_undefined equipes then
    (Response 400
       (message "Nom d'utilisateur et données (personnes, equipes) requis."),
     db)
  else
    match insert_users_on_conflict_do_nothing
            db username (Some "no_password_needed") with
    | Thrown _ =>
        (Response 500
           (message "Erreur serveur lors de la sauvegarde des données."), db)
    | Returned db1 =>
        match upsert_user_data db1 username personnes equipes with
        | Returned db2 =>
            (Response 200 (message "Données sauvegardées avec succès."), db2)
        | Thrown _ =>
            (Response 500
               (message "Erreur serveur lors de la sauvegarde des données."),
             db1)
        end
    end.

End Part000.

(** ** The server as a transition system *)

(** The two files of the repository. *)
Inductive deployment : Type :=
| server_js
| part_000.

Definition saveData (d : deployment) : DB -> body -> response * DB :=
  match d with
  | server_js => ServerJs.saveData
  | part_000 => Part000.saveData
  end.

(** A request to one of the four routes. *)
Inductive request : Type :=
| POST_register (b : body)
| POST_login (b : body)
| POST_saveData (b : body)
| GET_loadData (param : string).

Definition handle (d : deployment) (db : DB) (r : request) : response * DB :=
  match r with
  | POST_register b => register db b
  | POST_login b => login db b
  | POST_saveData b => saveData d db b
  | GET_loadData param => loadData db param
  end.

(** The state after a sequence of requests, handled in order. *)
Fixpoint run (d : deployment) (db : DB) (rs : list request) : DB :=
  match rs with
  | [] => db
  | r :: rs' => run d (handle d db r).2 rs'
  end.

(** States the server can be in, starting from empty tables. *)
Definition reachable (d : deployment) (db : DB) : Prop :=
  ∃ rs, db = run d empty_db rs.

(** The state of the document of one username. *)
Inductive doc_state : Type :=
| absent
| present.

Definition document (db : DB) (u : string) : doc_state :=
  match user_data db !! u with
  | Some _ => present
  | None => absent
  end.

(** The foreign key of [user_data] into [users]. *)
Definition foreign_key_ok (db : DB) : Prop :=
  ∀ u, is_Some (user_data db !! u) → is_Some (users db !! u).

(** No stored username and no stored password is the empty string. *)
Definition accounts_nonempty (db : DB) : Prop :=
  ∀ u pw, users db !! u = Some pw → u ≠ "" ∧ pw ≠ "".

(** Request bodies of the three POST routes. *)
Definition credentials (u pw : string) : body :=
  Body (Some u) (Some pw) None None.

Definition document_body (u : string) (p e : JSON) : body :=
  Body (Some u) None (Some p) (Some e).

(** A username of 256 characters, one more than the key column takes. *)
Definition username_256 : string := Nat.iter 256 (String "u"%char) "".

(** The guard of [register] and [login]. *)
Definition credentials_missing (req : body) : bool :=
  js_not (username req) || js_not (password req).

(** The guard of [saveData]. *)
Definition document_missing (req : body) : bool :=
  js_not (username req) || is_undefined (personnes req)
  || is_undefined (equipes req).

(** The writes a request can make to the tables: none, one new account
    row with a username and a password that are not empty, hold no U+0000
    and fit their columns, one document row created or replaced under a
    key that fits the column and has an account or already a document, or
    several of these in a row. *)
Inductive writes : DB → DB → Prop :=
| writes_nothing (db : DB) : writes db db
| writes_account (db : DB) (u pw : string) :
    users db !! u = None → u ≠ "" → pw ≠ "" →
    has_nul u = false → has_nul pw = false →
    (String.length u ≤ 255)%nat → (String.length pw ≤ 255)%nat →
    writes db (Db (<[u := pw]> (users db)) (user_data db))
| writes_document (db : DB) (u : string) (row : user_data_row) :
    is_Some (user_data db !! u) ∨ is_Some (users db !! u) →
    (String.length u ≤ 255)%nat →
    writes db (Db (users db) (<[u := row]> (user_data db)))
| writes_then (db1 db2 db3 : DB) :
    writes db1 db2 → writes db2 db3 → writes db1 db3.

(** No stored username and no stored password contains U+0000. *)
Definition accounts_nul_free (db : DB) : Prop :=
  ∀ u pw, users db !! u = Some pw → has_nul u = false ∧ has_nul pw = false.

(** A username that contains U+0000. *)
Definition username_with_nul : string :=
  String "a"%char (String Ascii.zero (String "b"%char EmptyString)).

(** ** The tables at start-up *)

(** Which of the two tables exist, with their rows. *)
Record catalog : Type := Catalog {
  table_users : option (gmap string string);
  table_user_data : option (gmap string user_data_row)
}.

(** A database in which neither table exists yet. *)
Definition no_tables : catalog := Catalog None None.

(** The catalog in which both tables exist and hold the rows of [db]. *)
Definition catalog_of (db : DB) : catalog :=
  Catalog (Some (users db)) (Some (user_data db)).

(** Error the engine raises on a CREATE TABLE statement. *)
Inductive ddl_error : Type :=
| undefined_table.

(** [CREATE TABLE IF NOT EXISTS users (...)] *)
Definition create_table_users (c : catalog) : ddl_error + catalog :=
  match table_users c with
  | Some _ => inr c
  | None => inr (Catalog (Some ∅) (table_user_data c))
  end.

(** [CREATE TABLE IF NOT EXISTS user_data (... REFERENCES users(username)
     ...)]: an existing table is left alone; a new one needs the table it
    references. *)
Definition create_table_user_data (c : catalog) : ddl_error + catalog :=
  match table_user_data c with
  | Some _ => inr c
  | None =>
      match table_users c with
      | Some _ => inr (Catalog (table_users c) (Some ∅))
      | None => inl undefined_table
      end
  end.

(** [setupDatabaseTables]: the two statements in order; a throw ends the
    [try] block and is logged by the [catch]. *)
Definition setupDatabaseTables (c : catalog) : catalog :=
  match create_table_users c with
  | inl _ => c
  | inr c1 =>
      match create_table_user_data c1 with
      | inl _ => c1
      | inr c2 => c2
      end
  end.

(** Every stored username and password is within the capacity of its
    column. *)
Definition columns_fit (db : DB) : Prop :=
  (∀ u pw, users db !! u = Some pw →
     (String.length u ≤ 255)%nat ∧ (String.length pw ≤ 255)%nat)
  ∧ (∀ u r, user_data db !! u = Some r → (String.length u ≤ 255)%nat).

(** A username of 256 characters whose last one is a space. *)
Definition username_255_and_space : string :=
  Nat.iter 255 (String "u"%char) " ".

(** * Properties *)

(** ** Falsiness *)

Lemma js_not_nonempty (u : string) : u ≠ "" → js_not (Some u) = false.
Proof. intros Hu. simpl. by apply String.eqb_neq. Qed.

Lemma js_not_Some_inv (x : option string) :
  js_not x = false → ∃ u, x = Some u ∧ u ≠ "".
Proof.
  destruct x as [u|]; [|done].
  simpl. intros Hu. exists u. split; [done|]. by apply String.eqb_neq.
Qed.

Lemma is_undefined_inv {A : Type} (x : option A) :
  is_undefined x = false → ∃ a, x = Some a.
Proof. destruct x as [a|]; [by exists a|done]. Qed.


Lemma js_or_left (a b : JSON) : truthy a = true → js_or a b = a.
Proof. intros Ha. unfold js_or. by rewrite Ha. Qed.


(** One step of a statement whose first part has returned. *)
Ltac step := cbn [mbind outcome_bind].

(** ** Strings, their parameter and their column *)

Lemma text_param_ok (s : string) : has_nul s = false → text_param s = Returned s.
Proof. intros Hs. unfold text_param. by rewrite Hs. Qed.

Lemma text_param_refused (s : string) :
  has_nul s = true → text_param s = Thrown character_not_in_repertoire.
Proof. intros Hs. unfold text_param. by rewrite Hs. Qed.

Lemma text_param_inv (s s' : string) :
  text_param s = Returned s' → s' = s ∧ has_nul s = false.
Proof. unfold text_param. destruct (has_nul s); [done|]. by intros [= <-]. Qed.

Lemma varchar_255_fits (s : string) :
  (String.length s ≤ 255)%nat → varchar_255 s = Returned s.
Proof.
  intros Hlen. unfold varchar_255.
  by rewrite (proj2 (Nat.leb_le _ _) Hlen).
Qed.

Lemma varchar_255_nonempty (s s' : string) :
  varchar_255 s = Returned s' → s ≠ "" → s' ≠ "".
Proof.
  unfold varchar_255.
  destruct (String.length s <=? 255)%nat eqn:Hlen; [by intros [= <-]|].
  destruct (all_spaces _); [|done]. intros [= <-] _.
  destruct s as [|c s]; [done|]. discriminate.
Qed.

Lemma substring_length_le (n m : nat) (s : string) :
  (String.length (String.substring n m s) ≤ m)%nat.
Proof.
  revert n m. induction s as [|c s IH]; intros n m.
  - destruct n, m; simpl; lia.
  - destruct n as [|n].
    + destruct m as [|m]; simpl; [lia|]. specialize (IH 0%nat m). lia.
    + simpl. apply IH.
Qed.

Lemma substring_nul_free (n m : nat) (s : string) :
  has_nul s = false → has_nul (String.substring n m s) = false.
Proof.
  revert n m. induction s as [|c s IH]; intros n m.
  - by destruct n, m.
  - simpl. intros [Hc Hs]%orb_false_iff. destruct n as [|n].
    + destruct m as [|m]; simpl; [done|]. by rewrite Hc, IH.
    + by apply IH.
Qed.

Lemma varchar_255_length (s s' : string) :
  varchar_255 s = Returned s' → (String.length s' ≤ 255)%nat.
Proof.
  unfold varchar_255.
  destruct (String.length s <=? 255)%nat eqn:Hlen.
  - intros [= <-]. by apply Nat.leb_le.
  - destruct (all_spaces _); [|done]. intros [= <-].
    apply substring_length_le.
Qed.

Lemma varchar_255_nul_free (s s' : string) :
  varchar_255 s = Returned s' → has_nul s = false → has_nul s' = false.
Proof.
  unfold varchar_255.
  destruct (String.length s <=? 255)%nat; [by intros [= <-]|].
  destruct (all_spaces _); [|done]. intros [= <-].
  apply substring_nul_free.
Qed.

(** ** The statements write through [writes] *)

Lemma insert_users_writes (db db' : DB) (u pw : string) :
  u ≠ "" → pw ≠ "" →
  insert_users db (Some u) (Some pw) = Returned db' → writes db db'.
Proof.
  intros Hu Hpw. unfold insert_users.
  destruct (text_param u) as [u1|] eqn:Htu; [|done].
  destruct (text_param pw) as [pw1|] eqn:Htp; [|done].
  apply text_param_inv in Htu as [-> Hnu].
  apply text_param_inv in Htp as [-> Hnp]. simpl.
  destruct (varchar_255 u) as [u'|] eqn:Hku; [|done].
  destruct (varchar_255 pw) as [pw'|] eqn:Hkp; [|done]. simpl.
  destruct (users db !! u') eqn:Hacc; [done|]. intros [= <-].
  apply writes_account; try done;
    first [by eapply varchar_255_nonempty | by eapply varchar_255_nul_free
          | by eapply varchar_255_length].
Qed.

Lemma insert_users_on_conflict_do_nothing_writes (db db' : DB) (u pw : string) :
  u ≠ "" → pw ≠ "" →
  insert_users_on_conflict_do_nothing db (Some u) (Some pw) = Returned db' →
  writes db db'.
Proof.
  intros Hu Hpw. unfold insert_users_on_conflict_do_nothing.
  destruct (text_param u) as [u1|] eqn:Htu; [|done].
  destruct (text_param pw) as [pw1|] eqn:Htp; [|done].
  apply text_param_inv in Htu as [-> Hnu].
  apply text_param_inv in Htp as [-> Hnp]. simpl.
  destruct (varchar_255 u) as [u'|] eqn:Hku; [|done].
  destruct (varchar_255 pw) as [pw'|] eqn:Hkp; [|done]. simpl.
  destruct (users db !! u') eqn:Hacc; intros [= <-]; [constructor|].
  apply writes_account; try done;
    first [by eapply varchar_255_nonempty | by eapply varchar_255_nul_free
          | by eapply varchar_255_length].
Qed.

Lemma upsert_user_data_writes (db db' : DB) (u : option string)
    (p e : option JSON) :
  upsert_user_data db u p e = Returned db' → writes db db'.
Proof.
  unfold upsert_user_data. destruct u as [u|]; [|done].
  destruct (text_param u) as [u1|]; [|done]. step.
  destruct (jsonb_param p) as [p'|]; [|done]. step.
  destruct (jsonb_param e) as [e'|]; [|done]. step.
  destruct (varchar_255 u1) as [u'|] eqn:Hku; [|done]. step.
  apply varchar_255_length in Hku.
  destruct (user_data db !! u') as [r|] eqn:Hdoc.
  - intros [= <-]. apply writes_document; [|done]. left. by exists r.
  - destruct (users db !! u') as [pw|] eqn:Hacc; [|done].
    intros [= <-]. apply writes_document; [|done]. right. by exists pw.
Qed.

(** ** What each handler computes *)

Lemma credentials_present (req : body) :
  credentials_missing req = false →
  ∃ u pw, username req = Some u ∧ password req = Some pw ∧ u ≠ "" ∧ pw ≠ "".
Proof.
  unfold credentials_missing. intros [Hu Hp]%orb_false_iff.
  apply js_not_Some_inv in Hu as (u & ? & ?).
  apply js_not_Some_inv in Hp as (pw & ? & ?).
  by exists u, pw.
Qed.

Lemma document_present (req : body) :
  document_missing req = false →
  ∃ u p e, username req = Some u ∧ personnes req = Some p
           ∧ equipes req = Some e ∧ u ≠ "".
Proof.
  unfold document_missing. intros [[Hu Hp]%orb_false_iff He]%orb_false_iff.
  apply js_not_Some_inv in Hu as (u & ? & ?).
  apply is_undefined_inv in Hp as [p ?].
  apply is_undefined_inv in He as [e ?].
  by exists u, p, e.
Qed.

Lemma register_missing (db : DB) (req : body) :
  credentials_missing req = true →
  register db req =
    (Response 400 (message "Nom d'utilisateur et mot de passe requis."), db).
Proof. unfold credentials_missing, register. by intros ->. Qed.

Lemma register_present (db : DB) (req : body) (u pw : string) :
  username req = Some u → password req = Some pw → u ≠ "" → pw ≠ "" →
  has_nul u = false → has_nul pw = false →
  (String.length u ≤ 255)%nat → (String.length pw ≤ 255)%nat →
  register db req =
    match users db !! u with
    | Some _ => (Response 409 (message "Nom d'utilisateur déjà pris."), db)
    | None => (Response 201 (message "Inscription réussie."),
               Db (<[u := pw]> (users db)) (user_data db))
    end.
Proof.
  intros Hu Hp Hune Hpne Hunul Hpnul Hulen Hplen. unfold register.
  rewrite Hu, Hp, (js_not_nonempty u Hune), (js_not_nonempty pw Hpne).
  unfold select_users_by_username, insert_users.
  rewrite !text_param_ok by done. simpl.
  rewrite !varchar_255_fits by done. simpl.
  by destruct (users db !! u).
Qed.

Lemma register_taken (db : DB) (req : body) (u pw : string) :
  username req = Some u → password req = Some pw → u ≠ "" → pw ≠ "" →
  has_nul u = false → is_Some (users db !! u) →
  register db req = (Response 409 (message "Nom d'utilisateur déjà pris."), db).
Proof.
  intros Hu Hp Hune Hpne Hunul [stored Hrow]. unfold register.
  rewrite Hu, Hp, (js_not_nonempty u Hune), (js_not_nonempty pw Hpne).
  unfold select_users_by_username.
  rewrite text_param_ok by done. simpl. by rewrite Hrow.
Qed.

Lemma register_refused (db : DB) (req : body) (u pw : string) :
  username req = Some u → password req = Some pw → u ≠ "" → pw ≠ "" →
  has_nul u = true →
  register db req
    = (Response 500 (message "Erreur serveur lors de l'inscription."), db).
Proof.
  intros Hu Hp Hune Hpne Hunul. unfold register.
  rewrite Hu, Hp, (js_not_nonempty u Hune), (js_not_nonempty pw Hpne).
  unfold select_users_by_username. by rewrite text_param_refused.
Qed.

Lemma login_missing (db : DB) (req : body) :
  credentials_missing req = true →
  login db req =
    (Response 400 (message "Nom d'utilisateur et mot de passe requis."), db).
Proof. unfold credentials_missing, login. by intros ->. Qed.

Lemma login_present (db : DB) (req : body) (u pw : string) :
  username req = Some u → password req = Some pw → u ≠ "" → pw ≠ "" →
  has_nul u = false → has_nul pw = false →
  login db req =
    if decide (users db !! u = Some pw)
    then (Response 200 (message "Connexion réussie."), db)
    else (Response 401
            (message "Nom d'utilisateur ou mot de passe incorrect."), db).
Proof.
  intros Hu Hp Hune Hpne Hunul Hpnul. unfold login.
  rewrite Hu, Hp, (js_not_nonempty u Hune), (js_not_nonempty pw Hpne).
  unfold select_users_by_credentials.
  rewrite !text_param_ok by done. simpl.
  destruct (users db !! u) as [stored|] eqn:Hrow.
  - destruct (String.eqb_spec stored pw) as [->|Hne].
    + by rewrite decide_True.
    + rewrite decide_False; [done|]. by intros [= ?].
  - by rewrite decide_False.
Qed.

Lemma login_refused (db : DB) (req : body) (u pw : string) :
  username req = Some u → password req = Some pw → u ≠ "" → pw ≠ "" →
  has_nul u = true ∨ has_nul pw = true →
  login db req
    = (Response 500 (message "Erreur serveur lors de la connexion."), db).
Proof.
  intros Hu Hp Hune Hpne Hnul. unfold login.
  rewrite Hu, Hp, (js_not_nonempty u Hune), (js_not_nonempty pw Hpne).
  unfold select_users_by_credentials, text_param.
  destruct (has_nul u); [done|]. destruct Hnul as [|Hpnul]; [done|].
  by rewrite Hpnul.
Qed.

Lemma loadData_present (db : DB) (u : string) :
  u ≠ "" → has_nul u = false →
  loadData db u =
    match user_data db !! u with
    | Some r =>
        (Response 200 (data (js_or (row_personnes r) (JArray []))
                            (js_or (row_equipes r) (JArray []))), db)
    | None => (Response 200 (data (JArray []) (JArray [])), db)
    end.
Proof.
  intros Hu Hnul. unfold loadData. rewrite (js_not_nonempty u Hu).
  unfold select_user_data. rewrite text_param_ok by done. simpl.
  by destruct (user_data db !! u).
Qed.

Lemma loadData_refused (db : DB) (u : string) :
  has_nul u = true →
  loadData db u
    = (Response 500
         (message "Erreur serveur lors du chargement des données."), db).
Proof.
  intros Hnul. unfold loadData.
  assert (u ≠ "") as Hu by (by intros ->).
  rewrite (js_not_nonempty u Hu).
  unfold select_user_data. by rewrite text_param_refused.
Qed.

Lemma saveData_missing (d : deployment) (db : DB) (req : body) :
  document_missing req = true →
  saveData d db req =
    (Response 400
       (message "Nom d'utilisateur et données (personnes, equipes) requis."),
     db).
Proof.
  unfold document_missing.
  destruct d; unfold saveData, ServerJs.saveData, Part000.saveData;
    by intros ->.
Qed.

(** [server.js]: the upsert decides. *)
Lemma ServerJs_saveData_present (db : DB) (req : body) (u : string)
    (p e p' e' : JSON) :
  username req = Some u → personnes req = Some p → equipes req = Some e →
  u ≠ "" → has_nul u = false → (String.length u ≤ 255)%nat →
  jsonb_param (Some p) = Returned p' → jsonb_param (Some e) = Returned e' →
  ServerJs.saveData db req =
    if decide (is_Some (user_data db !! u) ∨ is_Some (users db !! u))
    then (Response 200 (message "Données sauvegardées avec succès."),
          Db (users db) (<[u := Row p' e']> (user_data db)))
    else (Response 500
            (message "Erreur serveur lors de la sauvegarde des données."), db).
Proof.
  intros Hu Hp He Hune Hnul Hlen Hjp Hje. unfold ServerJs.saveData.
  rewrite Hu, Hp, He, (js_not_nonempty u Hune).
  unfold upsert_user_data.
  rewrite text_param_ok by done. step. rewrite Hjp. step. rewrite Hje. step.
  rewrite varchar_255_fits by done. step.
  destruct (user_data db !! u) as [r|] eqn:Hdoc.
  - rewrite decide_True; [done|]. left. by exists r.
  - destruct (users db !! u) as [pw|] eqn:Hacc.
    + rewrite decide_True; [done|]. right. by exists pw.
    + rewrite decide_False; [done|]. by intros [[? [=]]|[? [=]]].
Qed.

(** The placeholder insert of [part_000] on a username the column takes. *)
Lemma placeholder_insert (db : DB) (u : string) :
  has_nul u = false → (String.length u ≤ 255)%nat →
  insert_users_on_conflict_do_nothing db (Some u) (Some "no_password_needed")
    = Returned (Db (match users db !! u with
                    | Some _ => users db
                    | None => <[u := "no_password_needed"]> (users db)
                    end) (user_data db)).
Proof.
  intros Hnul Hlen. unfold insert_users_on_conflict_do_nothing.
  rewrite (text_param_ok u) by done.
  rewrite (text_param_ok "no_password_needed") by reflexivity. step.
  rewrite (varchar_255_fits u) by done.
  rewrite (varchar_255_fits "no_password_needed") by (vm_compute; lia).
  step. destruct (users db !! u); [by destruct db|done].
Qed.

(** [part_000]: the placeholder account makes the upsert go through when
    the column takes the payload. *)
Lemma Part000_saveData_present (db : DB) (req : body) (u : string)
    (p e p' e' : JSON) :
  username req = Some u → personnes req = Some p → equipes req = Some e →
  u ≠ "" → has_nul u = false → (String.length u ≤ 255)%nat →
  jsonb_param (Some p) = Returned p' → jsonb_param (Some e) = Returned e' →
  Part000.saveData db req =
    (Response 200 (message "Données sauvegardées avec succès."),
     Db (match users db !! u with
         | Some _ => users db
         | None => <[u := "no_password_needed"]> (users db)
         end)
        (<[u := Row p' e']> (user_data db))).
Proof.
  intros Hu Hp He Hune Hnul Hlen Hjp Hje. unfold Part000.saveData.
  rewrite Hu, Hp, He, (js_not_nonempty u Hune). cbn [orb is_undefined].
  rewrite placeholder_insert by done.
  unfold upsert_user_data.
  rewrite text_param_ok by done. step. rewrite Hjp. step. rewrite Hje. step.
  rewrite varchar_255_fits by done. step.
  destruct (users db !! u) as [pw|] eqn:Hacc; simpl.
  - rewrite Hacc. by destruct (user_data db !! u).
  - rewrite lookup_insert_eq. by destruct (user_data db !! u).
Qed.

(** [part_000]: when the column refuses the payload, the upsert throws
    after the placeholder insert has been made. *)
Lemma Part000_saveData_refused (db : DB) (req : body) (u : string)
    (p e : JSON) :
  username req = Some u → personnes req = Some p → equipes req = Some e →
  u ≠ "" → has_nul u = false → (String.length u ≤ 255)%nat →
  (∀ p' e', ¬ (jsonb_param (Some p) = Returned p'
               ∧ jsonb_param (Some e) = Returned e')) →
  Part000.saveData db req =
    (Response 500
       (message "Erreur serveur lors de la sauvegarde des données."),
     Db (match users db !! u with
         | Some _ => users db
         | None => <[u := "no_password_needed"]> (users db)
         end)
        (user_data db)).
Proof.
  intros Hu Hp He Hune Hnul Hlen Hrefused. unfold Part000.saveData.
  rewrite Hu, Hp, He, (js_not_nonempty u Hune). cbn [orb is_undefined].
  rewrite placeholder_insert by done.
  unfold upsert_user_data. rewrite text_param_ok by done. step.
  destruct (jsonb_param (Some p)) as [p'|] eqn:Hjp; [|done]. step.
  destruct (jsonb_param (Some e)) as [e'|] eqn:Hje; [|done].
  by destruct (Hrefused p' e').
Qed.

(** ** Every request writes through [writes] *)

Lemma register_writes (db : DB) (req : body) : writes db (register db req).2.
Proof.
  destruct (credentials_missing req) eqn:Hreq.
  - rewrite register_missing by done. constructor.
  - apply credentials_present in Hreq as (u & pw & Hu & Hp & Hune & Hpne).
    unfold register.
    rewrite Hu, Hp, (js_not_nonempty u Hune), (js_not_nonempty pw Hpne).
    cbn [orb].
    destruct (select_users_by_username db (Some u)); [|constructor].
    destruct (0 <? length _)%nat; [constructor|].
    destruct (insert_users db (Some u) (Some pw)) as [db'|] eqn:Hins;
      [|constructor].
    by apply (insert_users_writes db db' u pw).
Qed.

Lemma login_unchanged (db : DB) (req : body) : (login db req).2 = db.
Proof.
  unfold login.
  destruct (js_not (username req) || js_not (password req)); [done|].
  destruct (select_users_by_credentials db _ _); [|done].
  by destruct (0 <? length _)%nat.
Qed.

Lemma loadData_unchanged (db : DB) (param : string) : (loadData db param).2 = db.
Proof.
  unfold loadData. destruct (js_not (Some param)); [done|].
  by destruct (select_user_data db (Some param)) as [[|]|].
Qed.

Lemma saveData_writes (d : deployment) (db : DB) (req : body) :
  writes db (saveData d db req).2.
Proof.
  destruct (document_missing req) eqn:Hreq.
  - rewrite saveData_missing by done. constructor.
  - unfold document_missing in Hreq.
    destruct (document_present req Hreq) as (u & p & e & Hu & Hp & He & Hune).
    destruct d; simpl.
    + unfold ServerJs.saveData. rewrite Hreq.
      destruct (upsert_user_data db _ _ _) as [db'|] eqn:Hup; [|constructor].
      by apply upsert_user_data_writes in Hup.
    + unfold Part000.saveData. rewrite Hreq, Hu.
      destruct (insert_users_on_conflict_do_nothing db _ _) as [db1|] eqn:Hins;
        [|constructor].
      apply insert_users_on_conflict_do_nothing_writes in Hins; [|done..].
      destruct (upsert_user_data db1 _ _ _) as [db2|] eqn:Hup; [|done].
      apply upsert_user_data_writes in Hup. simpl.
      by eapply writes_then.
Qed.

Lemma handle_writes (d : deployment) (db : DB) (r : request) :
  writes db (handle d db r).2.
Proof.
  destruct r as [b|b|b|param]; simpl.
  - apply register_writes.
  - rewrite login_unchanged. constructor.
  - apply saveData_writes.
  - rewrite loadData_unchanged. constructor.
Qed.

Lemma run_writes (d : deployment) (rs : list request) (db : DB) :
  writes db (run d db rs).
Proof.
  revert db. induction rs as [|r rs IH]; intros db; simpl.
  - constructor.
  - eapply writes_then; [apply handle_writes | apply IH].
Qed.

(** ** What no write undoes *)

Lemma writes_users_kept (db db' : DB) (u pw : string) :
  writes db db' → users db !! u = Some pw → users db' !! u = Some pw.
Proof.
  induction 1 as [db|db u' pw' Hfree|db u' row|db1 db2 db3 _ IH1 _ IH2];
    intros Hacc; simpl; auto.
  rewrite lookup_insert_ne; [done|]. intros ->. congruence.
Qed.

Lemma writes_document_kept (db db' : DB) (u : string) :
  writes db db' → is_Some (user_data db !! u) → is_Some (user_data db' !! u).
Proof.
  induction 1 as [db|db u' pw'|db u' row|db1 db2 db3 _ IH1 _ IH2];
    intros Hdoc; simpl; auto.
  destruct (decide (u' = u)) as [->|Hne].
  - rewrite lookup_insert_eq. by eexists.
  - by rewrite lookup_insert_ne.
Qed.

Lemma writes_foreign_key_ok (db db' : DB) :
  writes db db' → foreign_key_ok db → foreign_key_ok db'.
Proof.
  induction 1 as [db|db u' pw'|db u' row Hkey|db1 db2 db3 _ IH1 _ IH2];
    intros Hfk; auto.
  - intros u Hdoc. simpl in *.
    destruct (decide (u' = u)) as [->|Hne].
    + rewrite lookup_insert_eq. by eexists.
    + rewrite lookup_insert_ne by done. by apply Hfk.
  - intros u. simpl.
    destruct (decide (u' = u)) as [->|Hne].
    + intros _. destruct Hkey as [Hdoc|Hacc]; [by apply Hfk|done].
    + rewrite lookup_insert_ne by done. apply Hfk.
Qed.

Lemma writes_accounts_nonempty (db db' : DB) :
  writes db db' → accounts_nonempty db → accounts_nonempty db'.
Proof.
  induction 1 as [db|db u' pw' _ Hu Hpw|db u' row|db1 db2 db3 _ IH1 _ IH2];
    intros Hok; auto.
  intros u pw. simpl.
  destruct (decide (u' = u)) as [->|Hne].
  - rewrite lookup_insert_eq. by intros [= <-].
  - rewrite lookup_insert_ne by done. apply Hok.
Qed.

Lemma writes_accounts_nul_free (db db' : DB) :
  writes db db' → accounts_nul_free db → accounts_nul_free db'.
Proof.
  induction 1
    as [db|db u' pw' _ _ _ Hu Hpw|db u' row|db1 db2 db3 _ IH1 _ IH2];
    intros Hok; auto.
  intros u pw. simpl.
  destruct (decide (u' = u)) as [->|Hne].
  - rewrite lookup_insert_eq. by intros [= <-].
  - rewrite lookup_insert_ne by done. apply Hok.
Qed.

Lemma writes_columns_fit (db db' : DB) :
  writes db db' → columns_fit db → columns_fit db'.
Proof.
  induction 1
    as [db|db u' pw' _ _ _ _ _ Hu Hpw|db u' row _ Hu|db1 db2 db3 _ IH1 _ IH2];
    intros Hfit; auto; destruct Hfit as [Hacc Hdoc].
  - split; [|done]. intros u pw. simpl.
    destruct (decide (u' = u)) as [->|Hne].
    + rewrite lookup_insert_eq. by intros [= <-].
    + rewrite lookup_insert_ne by done. apply Hacc.
  - split; [done|]. intros u r. simpl.
    destruct (decide (u' = u)) as [->|Hne].
    + by rewrite lookup_insert_eq.
    + rewrite lookup_insert_ne by done. apply Hdoc.
Qed.

Lemma reachable_foreign_key_ok (d : deployment) (db : DB) :
  reachable d db → foreign_key_ok db.
Proof.
  intros [rs ->]. eapply writes_foreign_key_ok; [apply run_writes|].
  intros u. simpl. rewrite lookup_empty. by intros [? [=]].
Qed.

Lemma reachable_accounts_nonempty (d : deployment) (db : DB) :
  reachable d db → accounts_nonempty db.
Proof.
  intros [rs ->]. eapply writes_accounts_nonempty; [apply run_writes|].
  intros u pw. simpl. by rewrite lookup_empty.
Qed.

Lemma reachable_accounts_nul_free (d : deployment) (db : DB) :
  reachable d db → accounts_nul_free db.
Proof.
  intros [rs ->]. eapply writes_accounts_nul_free; [apply run_writes|].
  intros u pw. simpl. by rewrite lookup_empty.
Qed.

Lemma reachable_columns_fit (d : deployment) (db : DB) :
  reachable d db → columns_fit db.
Proof.
  intros [rs ->]. eapply writes_columns_fit; [apply run_writes|].
  split; intros ? ?; simpl; by rewrite lookup_empty.
Qed.

(** ** What the JSONB column takes *)

(** The column holds [null], booleans, numbers and objects without U+0000
    as they are bound. *)
Lemma jsonb_param_kept (v : JSON) :
  match v with
  | JNull | JBool _ | JNumber _ => True
  | JObject _ => nul_free v = true
  | JString _ | JArray _ => False
  end →
  jsonb_param (Some v) = Returned v.
Proof.
  destruct v as [|b|q|s|items|members]; try done.
  intros Hfree. unfold jsonb_param. by rewrite Hfree.
Qed.

(** ** Which requests touch the document table *)

Lemma register_user_data (db : DB) (req : body) :
  user_data (register db req).2 = user_data db.
Proof.
  unfold register.
  destruct (js_not (username req) || js_not (password req)); [done|].
  destruct (select_users_by_username db _); [|done].
  destruct (0 <? length _)%nat; [done|].
  unfold insert_users.
  destruct (username req) as [u|], (password req) as [pw|]; try done.
  destruct (text_param u) as [u1|]; [|done]. step.
  destruct (text_param pw) as [pw1|]; [|done]. step.
  destruct (varchar_255 u1) as [u'|]; [|done]. step.
  destruct (varchar_255 pw1) as [pw'|]; [|done]. step.
  by destruct (users db !! u').
Qed.

(** What an upsert that returns has done. *)
Lemma upsert_user_data_returned (db db' : DB) (u0 : string) (p e : JSON) :
  upsert_user_data db (Some u0) (Some p) (Some e) = Returned db' →
  ∃ u p' e',
    has_nul u0 = false ∧ varchar_255 u0 = Returned u
    ∧ jsonb_param (Some p) = Returned p' ∧ jsonb_param (Some e) = Returned e'
    ∧ db' = Db (users db) (<[u := Row p' e']> (user_data db)).
Proof.
  unfold upsert_user_data.
  destruct (text_param u0) as [u1|] eqn:Ht; [|done].
  apply text_param_inv in Ht as [-> Hnul]. step.
  destruct (jsonb_param (Some p)) as [p'|]; [|done]. step.
  destruct (jsonb_param (Some e)) as [e'|]; [|done]. step.
  destruct (varchar_255 u0) as [u|]; [|done]. step.
  destruct (user_data db !! u).
  - intros [= <-]. by exists u, p', e'.
  - destruct (users db !! u); [|done]. intros [= <-]. by exists u, p', e'.
Qed.

(** What a placeholder insert that returns has done. *)
Lemma placeholder_insert_returned (db db1 : DB) (u0 : string) :
  insert_users_on_conflict_do_nothing db (Some u0) (Some "no_password_needed")
    = Returned db1 →
  ∃ u, has_nul u0 = false ∧ varchar_255 u0 = Returned u
       ∧ user_data db1 = user_data db
       ∧ users db1 = match users db !! u with
                     | Some _ => users db
                     | None => <[u := "no_password_needed"]> (users db)
                     end.
Proof.
  unfold insert_users_on_conflict_do_nothing.
  destruct (text_param u0) as [u1|] eqn:Ht; [|done].
  apply text_param_inv in Ht as [-> Hnul]. step.
  rewrite (text_param_ok "no_password_needed") by reflexivity. step.
  destruct (varchar_255 u0) as [u|]; [|done]. step.
  rewrite (varchar_255_fits "no_password_needed") by (vm_compute; lia). step.
  destruct (users db !! u) eqn:Hrow; intros [= <-]; exists u; by rewrite Hrow.
Qed.

(** A save is either not answered 200 and leaves the document table as it
    is, or is answered 200 and has put the row the column made of the
    request under the username as the key column holds it. *)
Lemma saveData_user_data (d : deployment) (db : DB) (req : body) :
  (status (saveData d db req).1 ≠ 200
   ∧ user_data (saveData d db req).2 = user_data db)
  ∨ ∃ u0 u p e p' e',
      username req = Some u0 ∧ has_nul u0 = false
      ∧ varchar_255 u0 = Returned u
      ∧ personnes req = Some p ∧ equipes req = Some e
      ∧ jsonb_param (Some p) = Returned p'
      ∧ jsonb_param (Some e) = Returned e'
      ∧ (saveData d db req).1
          = Response 200 (message "Données sauvegardées avec succès.")
      ∧ user_data (saveData d db req).2 = <[u := Row p' e']> (user_data db).
Proof.
  destruct (document_missing req) eqn:Hreq.
  { left. by rewrite saveData_missing. }
  unfold document_missing in Hreq.
  destruct (document_present req Hreq) as (u0 & p & e & Hu & Hp & He & Hune).
  destruct d; simpl.
  - unfold ServerJs.saveData. rewrite Hreq, Hu, Hp, He.
    destruct (upsert_user_data db _ _ _) as [db'|] eqn:Hup; [|by left].
    apply upsert_user_data_returned in Hup
      as (u & p' & e' & Hnul & Hk & Hjp & Hje & ->).
    right. by exists u0, u, p, e, p', e'.
  - unfold Part000.saveData. rewrite Hreq, Hu, Hp, He.
    destruct (insert_users_on_conflict_do_nothing db _ _) as [db1|] eqn:Hins;
      [|by left].
    apply placeholder_insert_returned in Hins as (u1 & _ & _ & Hdoc1 & _).
    destruct (upsert_user_data db1 _ _ _) as [db2|] eqn:Hup; [|by left].
    apply upsert_user_data_returned in Hup
      as (u & p' & e' & Hnul & Hk & Hjp & Hje & ->).
    right. exists u0, u, p, e, p', e'. cbn [fst snd user_data].
    by rewrite Hdoc1.
Qed.

(** A request that passes the guard of save is answered 200 or 500. *)
Lemma saveData_present_status (d : deployment) (db : DB) (req : body) :
  document_missing req = false →
  status (saveData d db req).1 = 200 ∨ status (saveData d db req).1 = 500.
Proof.
  unfold document_missing. intros Hreq. destruct d; simpl.
  - unfold ServerJs.saveData. rewrite Hreq.
    destruct (upsert_user_data db _ _ _); auto.
  - unfold Part000.saveData. rewrite Hreq.
    destruct (insert_users_on_conflict_do_nothing db _ _) as [db1|]; auto.
    destruct (upsert_user_data db1 _ _ _); auto.
Qed.

(** ** Save, then load *)

(** A save that goes through leaves exactly the row the column made of the
    request. *)
Lemma saveData_row (d : deployment) (db : DB) (req : body)
    (u : string) (p e p' e' : JSON) :
  username req = Some u → personnes req = Some p → equipes req = Some e →
  u ≠ "" → has_nul u = false → (String.length u ≤ 255)%nat →
  jsonb_param (Some p) = Returned p' → jsonb_param (Some e) = Returned e' →
  (d = server_js → is_Some (users db !! u)) →
  (saveData d db req).1
    = Response 200 (message "Données sauvegardées avec succès.")
  ∧ user_data (saveData d db req).2 = <[u := Row p' e']> (user_data db)
  ∧ is_Some (users (saveData d db req).2 !! u).
Proof.
  intros Hu Hp He Hune Hnul Hlen Hjp Hje Hacc. destruct d; simpl.
  - rewrite (ServerJs_saveData_present db req u p e p' e') by done.
    rewrite decide_True by (right; by apply Hacc). simpl. auto.
  - rewrite (Part000_saveData_present db req u p e p' e') by done. simpl.
    repeat split. destruct (users db !! u) eqn:Hrow.
    + by rewrite Hrow.
    + rewrite lookup_insert_eq. by eexists.
Qed.

(** A save that goes through, then a load of the same username. *)
Lemma saveData_loadData (d : deployment) (db : DB) (req : body)
    (u : string) (p e p' e' : JSON) :
  username req = Some u → personnes req = Some p → equipes req = Some e →
  u ≠ "" → has_nul u = false → (String.length u ≤ 255)%nat →
  jsonb_param (Some p) = Returned p' → jsonb_param (Some e) = Returned e' →
  (d = server_js → is_Some (users db !! u)) →
  (saveData d db req).1
    = Response 200 (message "Données sauvegardées avec succès.")
  ∧ (loadData (saveData d db req).2 u).1
      = Response 200 (data (js_or p' (JArray [])) (js_or e' (JArray []))).
Proof.
  intros Hu Hp He Hune Hnul Hlen Hjp Hje Hacc.
  destruct (saveData_row d db req u p e p' e') as (Hres & Hdoc & _); try done.
  split; [done|].
  rewrite loadData_present by done. by rewrite Hdoc, lookup_insert_eq.
Qed.

(** C1, as stated, fails.  [personnes: null] passes the validation of
    [saveData] and the save is answered 200, yet the following load returns
    [[]] for [personnes], not the saved [null].  In [server.js] a validated
    save for a username without an account row is answered 500 and the
    following load returns the defaults.  So is, in [part_000], a validated
    save for a username of 256 characters, and so is one for a username
    that contains U+0000, whose load is answered 500 as well. *)
Lemma saveData_loadData_counterexample :
  (let req := document_body "alice" JNull (JObject ∅) in
   let saved := Part000.saveData empty_db req in
   document_missing req = false
   ∧ status saved.1 = 200
   ∧ (loadData saved.2 "alice").1
       = Response 200 (data (JArray []) (JObject ∅))
   ∧ (loadData saved.2 "alice").1 ≠ Response 200 (data JNull (JObject ∅)))
  ∧ (let req := document_body "alice" (JObject ∅) (JObject ∅) in
     let saved := ServerJs.saveData empty_db req in
     document_missing req = false
     ∧ status saved.1 = 500
     ∧ (loadData saved.2 "alice").1
         = Response 200 (data (JArray []) (JArray [])))
  ∧ (let req := document_body username_256 (JObject ∅) (JObject ∅) in
     let saved := Part000.saveData empty_db req in
     document_missing req = false
     ∧ status saved.1 = 500
     ∧ (loadData saved.2 username_256).1
         = Response 200 (data (JArray []) (JArray [])))
  ∧ (let req := document_body username_with_nul (JObject ∅) (JObject ∅) in
     let saved := Part000.saveData empty_db req in
     document_missing req = false
     ∧ status saved.1 = 500
     ∧ status (loadData saved.2 username_with_nul).1 = 500).
Proof. vm_compute. repeat split; discriminate. Qed.

(** C1, amended: for every non-empty username of at most 255 characters
    without U+0000 and every pair of JSON values that reach the JSONB
    column as they are bound ([null], booleans, numbers and objects without
    U+0000 do, see [jsonb_param_kept]), a save whose username has an
    account row (in [part_000] every save, which creates the row itself) is
    answered 200, and the following load returns for each field the saved
    value if it is truthy and [[]] if it is [null], [false] or zero; so a
    pair of truthy such values comes back exactly as saved. *)
Theorem saveData_loadData_roundtrip (d : deployment) (db : DB) (req : body)
    (u : string) (p e : JSON) :
  username req = Some u → personnes req = Some p → equipes req = Some e →
  u ≠ "" → has_nul u = false → (String.length u ≤ 255)%nat →
  jsonb_param (Some p) = Returned p → jsonb_param (Some e) = Returned e →
  (d = server_js → is_Some (users db !! u)) →
  let saved := saveData d db req in
  saved.1 = Response 200 (message "Données sauvegardées avec succès.")
  ∧ (loadData saved.2 u).1
      = Response 200 (data (js_or p (JArray [])) (js_or e (JArray [])))
  ∧ (truthy p = true → truthy e = true →
     (loadData saved.2 u).1 = Response 200 (data p e)).
Proof.
  intros Hu Hp He Hune Hnul Hlen Hjp Hje Hacc saved.
  destruct (saveData_loadData d db req u p e p e) as [Hres Hload]; try done.
  split; [done|]. split; [done|].
  intros Htp Hte. subst saved. by rewrite Hload, !js_or_left.
Qed.

Lemma saveData_loadData_roundtrip_witness :
  let p := JObject {[ "id" := JNumber 1; "name" := JString "A" ]} in
  let saved := saveData part_000 empty_db (document_body "alice" p (JBool true)) in
  "alice" ≠ "" ∧ (String.length "alice" ≤ 255)%nat
  ∧ jsonb_param (Some p) = Returned p
  ∧ (loadData saved.2 "alice").1 = Response 200 (data p (JBool true)).
Proof.
  intros p saved.
  assert (String.length "alice" ≤ 255)%nat as Hlen by (vm_compute; lia).
  assert (jsonb_param (Some p) = Returned p) as Hjp
    by (by apply jsonb_param_kept).
  split; [done|]. split; [exact Hlen|]. split; [exact Hjp|].
  refine (proj2 (proj2 (saveData_loadData_roundtrip part_000 empty_db
                          (document_body "alice" p (JBool true)) "alice"
                          p (JBool true) eq_refl eq_refl eq_refl _ eq_refl
                          Hlen Hjp eq_refl _))
            eq_refl eq_refl); done.
Defined.

(** ** The placeholder account *)

(** C2, as stated, fails.  In [server.js] a save for a username without
    an account row creates no account row; the upsert runs into the foreign
    key and the request is answered 500.  In [part_000] the insert of the
    placeholder row throws for a username of 256 characters and for one
    that contains U+0000; no account row is created and the request is
    answered 500. *)
Lemma saveData_no_placeholder_counterexample :
  (let req := document_body "alice" (JObject ∅) (JObject ∅) in
   users empty_db !! "alice" = None
   ∧ upsert_user_data empty_db (username req) (personnes req) (equipes req)
       = Thrown foreign_key_violation
   ∧ status (ServerJs.saveData empty_db req).1 = 500
   ∧ users (ServerJs.saveData empty_db req).2 !! "alice" = None)
  ∧ (let req := document_body username_256 (JObject ∅) (JObject ∅) in
     insert_users_on_conflict_do_nothing
       empty_db (username req) (Some "no_password_needed")
       = Thrown string_data_right_truncation
     ∧ status (Part000.saveData empty_db req).1 = 500
     ∧ (Part000.saveData empty_db req).2 = empty_db)
  ∧ (let req := document_body username_with_nul (JObject ∅) (JObject ∅) in
     insert_users_on_conflict_do_nothing
       empty_db (username req) (Some "no_password_needed")
       = Thrown character_not_in_repertoire
     ∧ status (Part000.saveData empty_db req).1 = 500
     ∧ (Part000.saveData empty_db req).2 = empty_db).
Proof. vm_compute. by repeat split. Qed.

(** C2, amended: in [part_000], for every non-empty username of at most 255
    characters without U+0000 that has no account row, save first inserts
    the account row with the password ["no_password_needed"] and then
    upserts the document on the state that has it, so the upsert passes the
    foreign key: it fails only if the binding of [personnes] or [equipes]
    does, and when it returns the save is answered 200; the account row is
    there after the save either way.  In [server.js] save inserts no
    account row and, for such a username without a document, is answered
    500 and writes nothing.  In both files every save keeps the foreign key
    of the document table into the account table. *)
Theorem saveData_placeholder_account (db : DB) (req : body)
    (u : string) (p e : JSON) :
  username req = Some u → personnes req = Some p → equipes req = Some e →
  u ≠ "" → has_nul u = false → (String.length u ≤ 255)%nat →
  users db !! u = None →
  (∃ db1,
      insert_users_on_conflict_do_nothing db (Some u) (Some "no_password_needed")
        = Returned db1
      ∧ users db1 = <[u := "no_password_needed"]> (users db)
      ∧ user_data db1 = user_data db
      ∧ upsert_user_data db1 (Some u) (Some p) (Some e)
          = (p' ← jsonb_param (Some p);
             e' ← jsonb_param (Some e);
             Returned (Db (users db1) (<[u := Row p' e']> (user_data db1))))
      ∧ (∀ db2, upsert_user_data db1 (Some u) (Some p) (Some e) = Returned db2 →
           Part000.saveData db req
             = (Response 200 (message "Données sauvegardées avec succès."),
                db2))
      ∧ users (Part000.saveData db req).2 = users db1)
  ∧ (user_data db !! u = None →
     status (ServerJs.saveData db req).1 = 500
     ∧ (ServerJs.saveData db req).2 = db)
  ∧ (∀ d, foreign_key_ok db → foreign_key_ok (saveData d db req).2).
Proof.
  intros Hu Hp He Hune Hnul Hlen Hfree.
  assert (document_missing req = false) as Hreq.
  { unfold document_missing. by rewrite Hu, Hp, He, (js_not_nonempty u Hune). }
  unfold document_missing in Hreq.
  split; [|split].
  - exists (Db (<[u := "no_password_needed"]> (users db)) (user_data db)).
    assert (insert_users_on_conflict_do_nothing db (Some u)
              (Some "no_password_needed")
            = Returned (Db (<[u := "no_password_needed"]> (users db))
                           (user_data db))) as Hins
      by (by rewrite placeholder_insert, Hfree).
    split; [done|]. split; [done|]. split; [done|].
    assert (∀ db1, users db1 !! u = Some "no_password_needed" →
              upsert_user_data db1 (Some u) (Some p) (Some e)
              = (p' ← jsonb_param (Some p);
                 e' ← jsonb_param (Some e);
                 Returned (Db (users db1)
                              (<[u := Row p' e']> (user_data db1)))))
      as Hup.
    { intros db1 Hrow. unfold upsert_user_data.
      rewrite (text_param_ok u) by done. step.
      destruct (jsonb_param (Some p)) as [p'|]; [|done]. step.
      destruct (jsonb_param (Some e)) as [e'|]; [|done]. step.
      rewrite (varchar_255_fits u) by done. step.
      rewrite Hrow. by destruct (user_data db1 !! u). }
    split; [apply Hup; cbn [users]; by rewrite lookup_insert_eq|].
    unfold Part000.saveData. rewrite Hreq, Hu, Hp, He, Hins.
    split.
    + by intros db2 ->.
    + rewrite Hup by (cbn [users]; by rewrite lookup_insert_eq).
      destruct (jsonb_param (Some p)) as [p'|]; [|done]. step.
      by destruct (jsonb_param (Some e)) as [e'|].
  - intros Hdoc. unfold ServerJs.saveData. rewrite Hreq, Hu, Hp, He.
    unfold upsert_user_data. rewrite (text_param_ok u) by done. step.
    destruct (jsonb_param (Some p)) as [p'|]; [|done]. step.
    destruct (jsonb_param (Some e)) as [e'|]; [|done]. step.
    rewrite (varchar_255_fits u) by done. step.
    by rewrite Hdoc, Hfree.
  - intros d. apply writes_foreign_key_ok, saveData_writes.
Qed.

Lemma saveData_placeholder_account_witness :
  let req := document_body "global_user" (JObject ∅) (JObject ∅) in
  "global_user" ≠ "" ∧ (String.length "global_user" ≤ 255)%nat
  ∧ users empty_db !! "global_user" = None
  ∧ users (Part000.saveData empty_db req).2 !! "global_user"
      = Some "no_password_needed".
Proof.
  intros req.
  assert (String.length "global_user" ≤ 255)%nat as Hlen by (vm_compute; lia).
  split; [discriminate|]. split; [exact Hlen|]. split; [reflexivity|].
  destruct (saveData_placeholder_account empty_db req "global_user"
              (JObject ∅) (JObject ∅) eq_refl eq_refl eq_refl
              ltac:(discriminate) eq_refl Hlen eq_refl)
    as [(db1 & _ & Hacc & _ & _ & _ & Hsame) _].
  rewrite Hsame, Hacc. apply lookup_insert_eq.
Defined.

(** ** Load *)




(** ** Save replaces *)

(** C4, as stated, fails.  In [server.js], for a username without an
    account row, save creates no document row; two saves with different
    payloads are both answered 500 and the final load returns the defaults,
    not the second payload.  In [part_000] a save for a username of 256
    characters, or for one that contains U+0000, is answered 500 and
    creates no document row either. *)
Lemma saveData_creates_nothing_counterexample :
  (let first := ServerJs.saveData empty_db
                  (document_body "carol" (JNumber 1) (JObject ∅)) in
   let second := ServerJs.saveData first.2
                   (document_body "carol" (JNumber 2) (JObject ∅)) in
   user_data empty_db !! "carol" = None
   ∧ status first.1 = 500 ∧ user_data first.2 !! "carol" = None
   ∧ status second.1 = 500 ∧ user_data second.2 !! "carol" = None
   ∧ (loadData second.2 "carol").1
       = Response 200 (data (JArray []) (JArray [])))
  ∧ (let saved := Part000.saveData empty_db
                    (document_body username_256 (JNumber 1) (JObject ∅)) in
     status saved.1 = 500 ∧ user_data saved.2 = ∅)
  ∧ (let saved := Part000.saveData empty_db
                    (document_body username_with_nul (JNumber 1) (JObject ∅)) in
     status saved.1 = 500 ∧ user_data saved.2 = ∅).
Proof. vm_compute. by repeat split. Qed.

(** C4, amended: for every non-empty username of at most 255 characters
    without U+0000 that has an account row (in [part_000] every such
    username, since save creates the row itself) and every pair of values
    that reach the JSONB column as they are bound ([null], booleans,
    numbers, objects without U+0000), save is answered 200 and leaves a
    document row holding exactly the supplied pair, whether or not a row
    existed and whatever it held; after two successive such saves the row
    is the second pair and load reflects the second payload only;
    documents of other usernames are untouched. *)
Theorem saveData_replaces_document (d : deployment) (db : DB)
    (req1 req2 : body) (u : string) (p1 e1 p2 e2 : JSON) :
  username req1 = Some u → personnes req1 = Some p1 → equipes req1 = Some e1 →
  username req2 = Some u → personnes req2 = Some p2 → equipes req2 = Some e2 →
  u ≠ "" → has_nul u = false → (String.length u ≤ 255)%nat →
  jsonb_param (Some p1) = Returned p1 → jsonb_param (Some e1) = Returned e1 →
  jsonb_param (Some p2) = Returned p2 → jsonb_param (Some e2) = Returned e2 →
  (d = server_js → is_Some (users db !! u)) →
  let first := saveData d db req1 in
  let second := saveData d first.2 req2 in
  status first.1 = 200
  ∧ user_data first.2 !! u = Some (Row p1 e1)
  ∧ status second.1 = 200
  ∧ user_data second.2 !! u = Some (Row p2 e2)
  ∧ (loadData second.2 u).1
      = Response 200 (data (js_or p2 (JArray [])) (js_or e2 (JArray [])))
  ∧ (∀ u', u' ≠ u → user_data second.2 !! u' = user_data db !! u').
Proof.
  intros Hu1 Hp1 He1 Hu2 Hp2 He2 Hune Hnul Hlen Hjp1 Hje1 Hjp2 Hje2 Hacc
    first second.
  destruct (saveData_row d db req1 u p1 e1 p1 e1) as (Hres1 & Hdoc1 & Hacc1);
    try done.
  fold first in Hres1, Hdoc1, Hacc1.
  destruct (saveData_row d first.2 req2 u p2 e2 p2 e2) as (Hres2 & Hdoc2 & _);
    try done.
  fold second in Hres2, Hdoc2.
  rewrite Hres1, Hres2, loadData_present, Hdoc2, Hdoc1 by done.
  rewrite !lookup_insert_eq. repeat split.
  intros u' Hne. by rewrite !lookup_insert_ne.
Qed.

Lemma saveData_replaces_document_witness :
  let db := (register empty_db (credentials "carol" "pw")).2 in
  let a := JObject {[ "a" := JNumber 1 ]} in
  let b := JObject {[ "b" := JNumber 2 ]} in
  let first := saveData server_js db (document_body "carol" a (JBool true)) in
  let second := saveData server_js first.2 (document_body "carol" JNull b) in
  "carol" ≠ "" ∧ (String.length "carol" ≤ 255)%nat
  ∧ is_Some (users db !! "carol")
  ∧ user_data second.2 !! "carol" = Some (Row JNull b).
Proof.
  intros db a b first second.
  assert (String.length "carol" ≤ 255)%nat as Hlen by (vm_compute; lia).
  assert (is_Some (users db !! "carol")) as Hacc by (vm_compute; by eexists).
  split; [discriminate|]. split; [exact Hlen|]. split; [exact Hacc|].
  exact (proj1 (proj2 (proj2 (proj2
           (saveData_replaces_document server_js db
              (document_body "carol" a (JBool true))
              (document_body "carol" JNull b)
              "carol" a (JBool true) JNull b
              eq_refl eq_refl eq_refl eq_refl eq_refl eq_refl
              ltac:(discriminate) eq_refl Hlen
              (jsonb_param_kept a eq_refl) eq_refl eq_refl
              (jsonb_param_kept b eq_refl) (λ _, Hacc)))))).
Defined.

(** ** Login *)

(** A login is answered 200 only for a pair the account table holds. *)
Lemma login_ok_inv (db : DB) (req : body) :
  status (login db req).1 = 200 →
  ∃ u pw, username req = Some u ∧ password req = Some pw
          ∧ users db !! u = Some pw.
Proof.
  destruct (credentials_missing req) eqn:Hreq.
  { by rewrite login_missing. }
  apply credentials_present in Hreq as (u & pw & Hu & Hp & Hune & Hpne).
  destruct (has_nul u) eqn:Hnu.
  { rewrite (login_refused db req u pw) by auto. done. }
  destruct (has_nul pw) eqn:Hnp.
  { rewrite (login_refused db req u pw) by auto. done. }
  rewrite (login_present db req u pw) by done.
  case_decide as Hrow; [|done]. intros _. by exists u, pw.
Qed.

(** C5, as stated, fails: the rejected response is not the same in every
    other case.  With an account row for ["alice"] in place, a login with a
    wrong password is answered 401, a login with the empty password (a
    wrong one as well) is answered 400 with another message, and a login
    with a wrong password that contains U+0000 is answered 500. *)
Lemma login_rejections_counterexample :
  let db := (register empty_db (credentials "alice" "secret")).2 in
  users db !! "alice" = Some "secret"
  ∧ (login db (credentials "alice" "wrong")).1
      = Response 401 (message "Nom d'utilisateur ou mot de passe incorrect.")
  ∧ (login db (credentials "alice" "")).1
      = Response 400 (message "Nom d'utilisateur et mot de passe requis.")
  ∧ (login db (credentials "alice" "")).1
      ≠ (login db (credentials "alice" "wrong")).1
  ∧ (login db (credentials "alice" username_with_nul)).1
      = Response 500 (message "Erreur serveur lors de la connexion.")
  ∧ (login db (credentials "alice" username_with_nul)).1
      ≠ (login db (credentials "alice" "wrong")).1.
Proof. vm_compute. by repeat split. Qed.

(** C5, amended: on every state the server can reach, login answers 200
    exactly when the request carries a username and a password and the
    account row of that username holds that very password; every other
    request is rejected: with the 400 missing-fields response when a field
    is empty or absent, with the 500 response when both fields are
    non-empty and one contains U+0000, and with the one 401 response
    otherwise; either way the response to a rejected request depends on the
    request alone, not on the store, so an unknown username and a wrong
    password cannot be told apart; login never changes the store. *)
Theorem login_verifies_credentials (d : deployment) (db : DB) (req : body) :
  reachable d db →
  (login db req).2 = db
  ∧ (status (login db req).1 = 200 ↔
     ∃ u pw, username req = Some u ∧ password req = Some pw
             ∧ users db !! u = Some pw)
  ∧ (credentials_missing req = true →
     (login db req).1
       = Response 400 (message "Nom d'utilisateur et mot de passe requis."))
  ∧ (∀ u pw, username req = Some u → password req = Some pw →
       u ≠ "" → pw ≠ "" →
       (has_nul u = true ∨ has_nul pw = true →
        (login db req).1
          = Response 500 (message "Erreur serveur lors de la connexion."))
       ∧ (has_nul u = false → has_nul pw = false →
          status (login db req).1 ≠ 200 →
          (login db req).1
            = Response 401
                (message "Nom d'utilisateur ou mot de passe incorrect.")))
  ∧ (∀ d' db', reachable d' db' →
       status (login db req).1 ≠ 200 → status (login db' req).1 ≠ 200 →
       (login db' req).1 = (login db req).1).
Proof.
  intros Hreach. split; [apply login_unchanged|].
  split; [|split; [|split]].
  - split; [apply login_ok_inv|].
    intros (u & pw & Hu & Hp & Hrow).
    destruct (reachable_accounts_nonempty d db Hreach u pw Hrow)
      as [Hune Hpne].
    destruct (reachable_accounts_nul_free d db Hreach u pw Hrow)
      as [Hnu Hnp].
    rewrite (login_present db req u pw) by done. by rewrite decide_True.
  - intros Hreq. by rewrite login_missing.
  - intros u pw Hu Hp Hune Hpne. split.
    + intros Hnul. by rewrite (login_refused db req u pw).
    + intros Hnu Hnp. rewrite (login_present db req u pw) by done.
      by case_decide.
  - intros d' db' _.
    destruct (credentials_missing req) eqn:Hreq.
    { by rewrite !login_missing. }
    apply credentials_present in Hreq as (u & pw & Hu & Hp & Hune & Hpne).
    destruct (has_nul u) eqn:Hnu.
    { by rewrite !(login_refused _ req u pw) by auto. }
    destruct (has_nul pw) eqn:Hnp.
    { by rewrite !(login_refused _ req u pw) by auto. }
    rewrite !(login_present _ req u pw) by done.
    by repeat case_decide.
Qed.

Lemma login_verifies_credentials_witness :
  let db := run server_js empty_db [POST_register (credentials "alice" "secret")] in
  reachable server_js db
  ∧ status (login db (credentials "alice" "secret")).1 = 200
  ∧ (login db (credentials "alice" "wrong")).1
      = (login db (credentials "nobody" "wrong")).1.
Proof.
  intros db.
  assert (reachable server_js db) as Hreach by (by eexists).
  split; [exact Hreach|]. split.
  - apply (proj1 (proj2 (login_verifies_credentials server_js db
                           (credentials "alice" "secret") Hreach))).
    by exists "alice", "secret".
  - apply (proj2 (proj2 (proj2 (proj2
             (login_verifies_credentials server_js db
                (credentials "nobody" "wrong") Hreach)))) server_js db Hreach);
      vm_compute; discriminate.
Defined.

(** ** Register *)

(** C6, as stated, fails.  With an account row for ["alice"] in place, a
    second register for ["alice"] with the empty password is answered 400
    (missing fields), not 409; so register twice with the same username
    does not yield success then conflict for any credentials.  And a
    register for a username of 256 characters, or for one that contains
    U+0000, that has no account row is answered 500 and inserts nothing. *)
Lemma register_counterexample :
  (let first := register empty_db (credentials "alice" "secret") in
   let second := register first.2 (credentials "alice" "") in
   status first.1 = 201
   ∧ users first.2 !! "alice" = Some "secret"
   ∧ second.1
       = Response 400 (message "Nom d'utilisateur et mot de passe requis.")
   ∧ status second.1 ≠ 409)
  ∧ (let only := register empty_db (credentials username_256 "secret") in
     users empty_db !! username_256 = None
     ∧ only.1 = Response 500 (message "Erreur serveur lors de l'inscription.")
     ∧ only.2 = empty_db)
  ∧ (let only := register empty_db (credentials username_with_nul "secret") in
     users empty_db !! username_with_nul = None
     ∧ only.1 = Response 500 (message "Erreur serveur lors de l'inscription.")
     ∧ only.2 = empty_db).
Proof. vm_compute. by repeat split. Qed.

(** C6, amended: for every username and credential that are non-empty, of
    at most 255 characters and without U+0000, register is answered 409
    and leaves the store unchanged when an account row with that username
    exists, and otherwise inserts exactly one account row, holding that
    credential, and is answered 201; register called twice with the same
    such username and any such credentials yields 201 then 409, and the
    second call alters nothing. *)
Theorem register_conflict_or_insert (db : DB) (req : body) (u pw : string) :
  username req = Some u → password req = Some pw → u ≠ "" → pw ≠ "" →
  has_nul u = false → has_nul pw = false →
  (String.length u ≤ 255)%nat → (String.length pw ≤ 255)%nat →
  (is_Some (users db !! u) →
   register db req = (Response 409 (message "Nom d'utilisateur déjà pris."), db))
  ∧ (users db !! u = None →
     register db req
       = (Response 201 (message "Inscription réussie."),
          Db (<[u := pw]> (users db)) (user_data db))
     ∧ size (users (register db req).2) = S (size (users db))
     ∧ ∀ req2 pw2,
         username req2 = Some u → password req2 = Some pw2 →
         pw2 ≠ "" → has_nul pw2 = false → (String.length pw2 ≤ 255)%nat →
         register (register db req).2 req2
           = (Response 409 (message "Nom d'utilisateur déjà pris."),
              (register db req).2)
         ∧ users (register (register db req).2 req2).2 !! u = Some pw).
Proof.
  intros Hu Hp Hune Hpne Hnu Hnp Hulen Hplen.
  rewrite (register_present db req u pw) by done.
  split.
  - by intros [stored ->].
  - intros Hfree. rewrite Hfree. cbn [snd users]. split; [done|]. split.
    + by apply map_size_insert_None.
    + intros req2 pw2 Hu2 Hp2 Hpne2 Hnp2 Hplen2.
      rewrite (register_present _ req2 u pw2) by done. cbn [users].
      rewrite lookup_insert_eq. cbn [snd users].
      by rewrite lookup_insert_eq.
Qed.

Lemma register_conflict_or_insert_witness :
  let first := register empty_db (credentials "alice" "secret") in
  "alice" ≠ "" ∧ "secret" ≠ "" ∧ users empty_db !! "alice" = None
  ∧ status first.1 = 201
  ∧ status (register first.2 (credentials "alice" "other")).1 = 409.
Proof.
  intros first.
  destruct (proj2 (register_conflict_or_insert empty_db
                     (credentials "alice" "secret") "alice" "secret"
                     eq_refl eq_refl ltac:(discriminate) ltac:(discriminate)
                     eq_refl eq_refl
                     ltac:(vm_compute; lia) ltac:(vm_compute; lia))
              eq_refl) as (Hfirst & _ & Hsecond).
  destruct (Hsecond (credentials "alice" "other") "other" eq_refl eq_refl
              ltac:(discriminate) eq_refl ltac:(vm_compute; lia))
    as [Hconflict _].
  split; [discriminate|]. split; [discriminate|]. split; [reflexivity|].
  subst first. split.
  - by rewrite Hfirst.
  - by rewrite Hconflict.
Defined.

(** ** Validation of a save *)

(** C7, as stated, fails.  In [server.js] a request with a username,
    [personnes: []] and [equipes: []] passes validation but, the username
    having no account row, does not succeed: it is answered 500 and the
    following load finds no document.  In [part_000] the same happens to
    such a request for a username of 256 characters and for one that
    contains U+0000. *)
Lemma saveData_empty_array_counterexample :
  (let req := document_body "dave" (JArray []) (JArray []) in
   document_missing req = false
   ∧ (ServerJs.saveData empty_db req).1
       = Response 500
           (message "Erreur serveur lors de la sauvegarde des données.")
   ∧ user_data (ServerJs.saveData empty_db req).2 !! "dave" = None)
  ∧ (let req := document_body username_256 (JArray []) (JArray []) in
     document_missing req = false
     ∧ (Part000.saveData empty_db req).1
         = Response 500
             (message "Erreur serveur lors de la sauvegarde des données.")
     ∧ user_data (Part000.saveData empty_db req).2 = ∅)
  ∧ (let req := document_body username_with_nul (JArray []) (JArray []) in
     document_missing req = false
     ∧ (Part000.saveData empty_db req).1
         = Response 500
             (message "Erreur serveur lors de la sauvegarde des données.")
     ∧ user_data (Part000.saveData empty_db req).2 = ∅).
Proof. vm_compute. by repeat split. Qed.

(** C7, amended: a save request whose username is absent or empty, or
    whose [personnes] or [equipes] is undefined, is answered 400 and writes
    nothing; a request with a non-empty username, [personnes: []] and
    [equipes] present is never answered 400, and it is answered 200
    whenever the username has at most 255 characters, no U+0000 and an
    account row (in [part_000] save creates the row itself) and the
    binding of [equipes] to its column returns. *)
Theorem saveData_validation (d : deployment) (db : DB) (req : body) :
  (username req = None ∨ username req = Some "" ∨ personnes req = None
   ∨ equipes req = None →
   saveData d db req
     = (Response 400
          (message "Nom d'utilisateur et données (personnes, equipes) requis."),
        db))
  ∧ (∀ u e,
       username req = Some u → u ≠ "" →
       personnes req = Some (JArray []) → equipes req = Some e →
       status (saveData d db req).1 ≠ 400
       ∧ (∀ e', has_nul u = false → (String.length u ≤ 255)%nat →
            (d = server_js → is_Some (users db !! u)) →
            jsonb_param (Some e) = Returned e' →
            (saveData d db req).1
              = Response 200 (message "Données sauvegardées avec succès."))).
Proof.
  split.
  - intros Hmissing. apply saveData_missing. unfold document_missing.
    destruct Hmissing as [Hm | [Hm | [Hm | Hm]]]; rewrite Hm; simpl;
      by rewrite ?orb_true_r.
  - intros u e Hu Hune Hp He. split.
    + assert (document_missing req = false) as Hreq.
      { unfold document_missing.
        by rewrite Hu, Hp, He, (js_not_nonempty u Hune). }
      destruct (saveData_present_status d db req Hreq) as [-> | ->]; done.
    + intros e' Hnul Hlen Hacc Hje.
      by destruct (saveData_row d db req u (JArray []) e (JObject ∅) e')
        as (Hres & _ & _).
Qed.

Lemma saveData_validation_witness :
  let req := document_body "dave" (JArray []) (JObject ∅) in
  saveData part_000 empty_db (Body (Some "dave") None None (Some (JArray [])))
    = (Response 400
         (message "Nom d'utilisateur et données (personnes, equipes) requis."),
       empty_db)
  ∧ (saveData part_000 empty_db req).1
      = Response 200 (message "Données sauvegardées avec succès.").
Proof.
  intros req. split.
  - apply (proj1 (saveData_validation part_000 empty_db
                    (Body (Some "dave") None None (Some (JArray []))))).
    right. right. left. reflexivity.
  - apply (proj2 (proj2 (saveData_validation part_000 empty_db req)
                    "dave" (JObject ∅) eq_refl ltac:(discriminate)
                    eq_refl eq_refl) (JObject ∅) eq_refl).
    + vm_compute. lia.
    + discriminate.
    + reflexivity.
Defined.

(** ** The document of a username over time *)

Lemma document_present_iff (db : DB) (u : string) :
  document db u = present ↔ is_Some (user_data db !! u).
Proof.
  unfold document. destruct (user_data db !! u) as [r|].
  - split; [by eexists|done].
  - split; [done|]. by intros [? [=]].
Qed.

(** C8: a document is either absent or present; whatever the request, a
    present document stays present, and so it does along every sequence of
    register, login, save and load requests; the only request that takes a
    document from absent to present is a save answered 200 whose username,
    as the key column holds it, is that of the document; and every save
    answered 200 leaves the document of its username present. *)
Theorem document_never_absent_again (d : deployment) (db : DB) (u : string) :
  (∀ s : doc_state, s = absent ∨ s = present)
  ∧ (∀ r, document db u = present → document (handle d db r).2 u = present)
  ∧ (∀ rs, document db u = present → document (run d db rs) u = present)
  ∧ (∀ r, document db u = absent → document (handle d db r).2 u = present →
       ∃ b u0, r = POST_saveData b ∧ username b = Some u0
               ∧ varchar_255 u0 = Returned u
               ∧ status (handle d db r).1 = 200)
  ∧ (∀ b u0, username b = Some u0 → varchar_255 u0 = Returned u →
       status (saveData d db b).1 = 200 →
       document (saveData d db b).2 u = present).
Proof.
  split; [by intros []; auto|]. split; [|split; [|split]].
  - intros r. rewrite !document_present_iff.
    apply writes_document_kept, handle_writes.
  - intros rs. rewrite !document_present_iff.
    apply writes_document_kept, run_writes.
  - intros r Habsent Hpresent. unfold document in Habsent, Hpresent.
    destruct r as [b|b|b|param]; simpl in Hpresent.
    + rewrite register_user_data in Hpresent.
      destruct (user_data db !! u); done.
    + rewrite login_unchanged in Hpresent.
      destruct (user_data db !! u); done.
    + destruct (saveData_user_data d db b)
        as [[_ Hsame]|(u0 & u1 & p & e & p' & e' & Hu & _ & Hk & _ & _ & _ & _
                       & Hres & Hdoc)].
      * rewrite Hsame in Hpresent. destruct (user_data db !! u); done.
      * exists b, u0. simpl. rewrite Hres. repeat split; try done.
        destruct (decide (u1 = u)) as [<-|Hne]; [done|].
        rewrite Hdoc, lookup_insert_ne in Hpresent by done.
        destruct (user_data db !! u); done.
    + rewrite loadData_unchanged in Hpresent.
      destruct (user_data db !! u); done.
  - intros b u0 Hu Hk Hok. apply document_present_iff.
    destruct (saveData_user_data d db b)
      as [[Hnot _]|(u0' & u1 & p & e & p' & e' & Hu' & _ & Hk' & _ & _ & _ & _
                    & _ & Hdoc)];
      [done|].
    assert (u0' = u0) as -> by congruence.
    assert (u1 = u) as -> by congruence.
    rewrite Hdoc, lookup_insert_eq. by eexists.
Qed.

Lemma document_never_absent_again_witness :
  let db := (saveData part_000 empty_db
               (document_body "erin" (JObject {[ "x" := JNumber 1 ]})
                  (JObject ∅))).2 in
  document db "erin" = present
  ∧ document (run part_000 db
                [POST_register (credentials "erin" "pw");
                 POST_login (credentials "erin" "no_password_needed");
                 GET_loadData "erin";
                 POST_saveData (document_body "erin" JNull JNull);
                 POST_saveData (document_body "erin" (JArray [JString "x"])
                                  (JArray []));
                 POST_saveData (Body (Some "erin") None None None)])
             "erin" = present.
Proof.
  intros db.
  assert (document db "erin" = present) as Hpresent by reflexivity.
  split; [exact Hpresent|].
  exact (proj1 (proj2 (proj2 (document_never_absent_again part_000 db "erin")))
           _ Hpresent).
Defined.

(** ** What load never returns *)



(** ** Empty credentials *)

(** C10: a register or login request whose username or password is present
    but equal to the empty string is answered 400 with the missing-fields
    message and changes nothing; the response is the one the same request
    gets with that field absent. *)
Theorem empty_credentials_rejected (db : DB) (req : body) :
  username req = Some "" ∨ password req = Some "" →
  register db req
    = (Response 400 (message "Nom d'utilisateur et mot de passe requis."), db)
  ∧ login db req
    = (Response 400 (message "Nom d'utilisateur et mot de passe requis."), db)
  ∧ (username req = Some "" →
     let req' := Body None (password req) (personnes req) (equipes req) in
     register db req = register db req' ∧ login db req = login db req')
  ∧ (password req = Some "" →
     let req' := Body (username req) None (personnes req) (equipes req) in
     register db req = register db req' ∧ login db req = login db req').
Proof.
  intros Hempty.
  assert (credentials_missing req = true) as Hreq.
  { unfold credentials_missing.
    destruct Hempty as [Hm | Hm]; rewrite Hm; simpl; by rewrite ?orb_true_r. }
  rewrite register_missing, login_missing by done.
  split; [done|]. split; [done|]. split.
  - intros _ req'. by rewrite register_missing, login_missing.
  - intros _ req'.
    rewrite register_missing, login_missing; [done|..];
      unfold credentials_missing; simpl; by rewrite orb_true_r.
Qed.

Lemma empty_credentials_rejected_witness :
  register empty_db (credentials "" "secret")
    = (Response 400 (message "Nom d'utilisateur et mot de passe requis."),
       empty_db)
  ∧ login empty_db (credentials "" "secret")
    = (Response 400 (message "Nom d'utilisateur et mot de passe requis."),
       empty_db).
Proof.
  destruct (empty_credentials_rejected empty_db (credentials "" "secret")
              (or_introl eq_refl)) as (Hregister & Hlogin & _).
  exact (conj Hregister Hlogin).
Defined.

(** * Further properties of the handlers *)

(** ** Start-up *)

(** X1: whatever tables exist at start-up, [setupDatabaseTables] leaves
    both in place: a missing table is created empty, an existing table
    keeps its rows; neither statement throws in the order of the source,
    while the second alone throws on a database without tables; running
    the function again changes nothing. *)
Theorem setupDatabaseTables_keeps_rows (c : catalog) :
  (∃ db, setupDatabaseTables c = catalog_of db
         ∧ users db = default ∅ (table_users c)
         ∧ user_data db = default ∅ (table_user_data c))
  ∧ (∃ c1 c2, create_table_users c = inr c1
              ∧ create_table_user_data c1 = inr c2)
  ∧ create_table_user_data no_tables = inl undefined_table
  ∧ setupDatabaseTables no_tables = catalog_of empty_db
  ∧ setupDatabaseTables (setupDatabaseTables c) = setupDatabaseTables c.
Proof.
  destruct c as [[accounts|] [documents|]];
    unfold setupDatabaseTables, create_table_users, create_table_user_data;
    simpl.
  - split; [by exists (Db accounts documents)|]. split; [by eexists _, _|done].
  - split; [by exists (Db accounts ∅)|]. split; [by eexists _, _|done].
  - split; [by exists (Db ∅ documents)|]. split; [by eexists _, _|done].
  - split; [by exists (Db ∅ ∅)|]. split; [by eexists _, _|done].
Qed.

(** ** Column capacity *)

(** X2: in every state the server can reach, no row is stored under a
    username of more than 255 characters; for such a username login is
    never answered 200 and load returns the defaults (or is answered 500
    if the username contains U+0000), whatever was saved or registered
    before. *)
Theorem long_usernames_have_no_rows (d : deployment) (db : DB) (u : string) :
  reachable d db → (255 < String.length u)%nat →
  users db !! u = None
  ∧ user_data db !! u = None
  ∧ (has_nul u = false →
     (loadData db u).1 = Response 200 (data (JArray []) (JArray [])))
  ∧ (has_nul u = true → status (loadData db u).1 = 500)
  ∧ ∀ pw, status (login db (credentials u pw)).1 ≠ 200.
Proof.
  intros Hreach Hlong.
  destruct (reachable_columns_fit d db Hreach) as [Hacc Hdoc].
  assert (u ≠ "") as Hune by (intros ->; simpl in Hlong; lia).
  assert (users db !! u = None) as Hnoacc.
  { destruct (users db !! u) as [pw|] eqn:Hrow; [|done].
    apply Hacc in Hrow. lia. }
  assert (user_data db !! u = None) as Hnodoc.
  { destruct (user_data db !! u) as [r|] eqn:Hrow; [|done].
    apply Hdoc in Hrow. lia. }
  split; [done|]. split; [done|]. split; [|split].
  - intros Hnul. by rewrite loadData_present, Hnodoc.
  - intros Hnul. by rewrite loadData_refused.
  - intros pw Hok.
    apply login_ok_inv in Hok as (u' & pw' & [= <-] & _ & Hrow).
    congruence.
Qed.

Lemma long_usernames_have_no_rows_witness :
  let req := document_body username_255_and_space (JObject ∅) (JObject ∅) in
  let db := run part_000 empty_db [POST_saveData req] in
  status (saveData part_000 empty_db req).1 = 200
  ∧ (255 < String.length username_255_and_space)%nat
  ∧ (loadData db username_255_and_space).1
      = Response 200 (data (JArray []) (JArray [])).
Proof.
  intros req db.
  assert (reachable part_000 db) as Hreach by (by eexists).
  assert (255 < String.length username_255_and_space)%nat as Hlong
    by (vm_compute; lia).
  split; [reflexivity|]. split; [exact Hlong|].
  exact (proj1 (proj2 (proj2 (long_usernames_have_no_rows part_000 db
                                username_255_and_space Hreach Hlong)))
           eq_refl).
Defined.

(** ** Accounts *)

Lemma login_same_account (db db' : DB) (req : body) (u : string) :
  username req = Some u → users db' !! u = users db !! u →
  (login db' req).1 = (login db req).1.
Proof.
  intros Hu Hsame. unfold login. rewrite Hu.
  destruct (js_not (Some u) || js_not (password req)); [done|].
  unfold select_users_by_credentials.
  destruct (password req) as [pw|].
  - destruct (text_param u) as [u1|] eqn:Ht; [|done].
    apply text_param_inv in Ht as [-> _]. step.
    destruct (text_param pw) as [pw1|]; [|done]. step.
    rewrite Hsame. destruct (users db !! u) as [stored|]; [|done].
    by destruct (String.eqb stored pw1).
  - by destruct (text_param u).
Qed.

(** X3: a register for a free username (fields non-empty, within 255
    characters, without U+0000) is answered 201, and a login with the same
    pair right after it is answered 200, while a login with that username
    and any other non-empty password is answered 401, or 500 if that
    password contains U+0000. *)
Theorem register_then_login (db : DB) (u pw : string) :
  u ≠ "" → pw ≠ "" → has_nul u = false → has_nul pw = false →
  (String.length u ≤ 255)%nat → (String.length pw ≤ 255)%nat →
  users db !! u = None →
  let registered := register db (credentials u pw) in
  status registered.1 = 201
  ∧ (login registered.2 (credentials u pw)).1
      = Response 200 (message "Connexion réussie.")
  ∧ ∀ pw', pw' ≠ "" → pw' ≠ pw →
      (login registered.2 (credentials u pw')).1
        = if has_nul pw'
          then Response 500 (message "Erreur serveur lors de la connexion.")
          else Response 401
                 (message "Nom d'utilisateur ou mot de passe incorrect.").
Proof.
  intros Hune Hpne Hnu Hnp Hulen Hplen Hfree registered. subst registered.
  rewrite (register_present db _ u pw) by done. rewrite Hfree.
  cbn [fst snd status]. split; [done|]. split.
  - rewrite (login_present _ _ u pw) by done. cbn [users].
    by rewrite lookup_insert_eq, decide_True.
  - intros pw' Hpne' Hother. destruct (has_nul pw') eqn:Hnp'.
    + by rewrite (login_refused _ _ u pw') by auto.
    + rewrite (login_present _ _ u pw') by done. cbn [users].
      rewrite lookup_insert_eq, decide_False; [done|]. by intros [= ->].
Qed.

Lemma register_then_login_witness :
  let registered := register empty_db (credentials "alice" "secret") in
  status registered.1 = 201
  ∧ (login registered.2 (credentials "alice" "secret")).1
      = Response 200 (message "Connexion réussie.").
Proof.
  destruct (register_then_login empty_db "alice" "secret"
              ltac:(discriminate) ltac:(discriminate) eq_refl eq_refl
              ltac:(vm_compute; lia) ltac:(vm_compute; lia) eq_refl)
    as (Hregistered & Hlogin & _).
  exact (conj Hregistered Hlogin).
Defined.

(** X4: no request changes or removes an account row: a username that
    has a password keeps that very password along every sequence of
    requests, in both files; so every login for that username is answered
    after the sequence as it was before it. *)
Theorem accounts_never_change (d : deployment) (db : DB) (rs : list request)
    (u pw : string) :
  users db !! u = Some pw →
  users (run d db rs) !! u = Some pw
  ∧ ∀ pw', (login (run d db rs) (credentials u pw')).1
           = (login db (credentials u pw')).1.
Proof.
  intros Hrow.
  assert (users (run d db rs) !! u = Some pw) as Hkept
    by (eapply writes_users_kept; [apply run_writes|done]).
  split; [done|]. intros pw'.
  apply (login_same_account db _ _ u); [done|]. by rewrite Hkept, Hrow.
Qed.

Lemma accounts_never_change_witness :
  let db := (register empty_db (credentials "alice" "secret")).2 in
  let later := run part_000 db
                 [POST_register (credentials "alice" "other");
                  POST_saveData (document_body "alice" (JArray []) (JArray []))] in
  users db !! "alice" = Some "secret" ∧ users later !! "alice" = Some "secret".
Proof.
  intros db later.
  assert (users db !! "alice" = Some "secret") as Hrow by reflexivity.
  split; [exact Hrow|].
  exact (proj1 (accounts_never_change part_000 db _ "alice" "secret" Hrow)).
Defined.

(** What the save of [part_000] does to the account table: nothing, or it
    adds the placeholder row of its username. *)
Lemma Part000_saveData_users (db : DB) (req : body) :
  users (Part000.saveData db req).2 = users db
  ∨ ∃ u0 u, document_missing req = false
            ∧ username req = Some u0 ∧ has_nul u0 = false
            ∧ varchar_255 u0 = Returned u ∧ users db !! u = None
            ∧ users (Part000.saveData db req).2
                = <[u := "no_password_needed"]> (users db).
Proof.
  destruct (document_missing req) eqn:Hreq.
  { left. pose proof (saveData_missing part_000 db req Hreq) as Hsame.
    simpl in Hsame. by rewrite Hsame. }
  unfold document_missing in Hreq.
  destruct (document_present req Hreq) as (u0 & p & e & Hu & Hp & He & Hune).
  unfold Part000.saveData. rewrite Hreq, Hu, Hp, He.
  destruct (insert_users_on_conflict_do_nothing db _ _) as [db1|] eqn:Hins;
    [|by left].
  apply placeholder_insert_returned in Hins as (u & Hnul & Hk & _ & Hacc).
  assert (users
            match upsert_user_data db1 (Some u0) (Some p) (Some e) with
            | Returned db2 =>
                (Response 200 (message "Données sauvegardées avec succès."),
                 db2)
            | Thrown _ =>
                (Response 500
                   (message "Erreur serveur lors de la sauvegarde des données."),
                 db1)
            end.2 = users db1) as ->.
  { destruct (upsert_user_data db1 _ _ _) as [db2|] eqn:Hup; [|done].
    by apply upsert_user_data_returned in Hup as (? & ? & ? & _ & _ & _ & _ & ->). }
  rewrite Hacc. destruct (users db !! u) eqn:Hrow; [by left|].
  right. by exists u0, u.
Qed.

(** X5: in [part_000], once a validated save for a username (at most 255
    characters, no U+0000) without an account has run, whether it was
    answered 200 or 500, the placeholder account of that username is in
    place: the username can no longer be registered (every later register
    with a non-empty password is answered 409 and writes nothing) and a
    login with the password ["no_password_needed"] is answered 200,
    whatever requests came in between. *)
Theorem Part000_placeholder_account_stays (db : DB) (req : body)
    (u : string) (p e : JSON) (rs : list request) :
  username req = Some u → personnes req = Some p → equipes req = Some e →
  u ≠ "" → has_nul u = false → (String.length u ≤ 255)%nat →
  users db !! u = None →
  let later := run part_000 (Part000.saveData db req).2 rs in
  users later !! u = Some "no_password_needed"
  ∧ (∀ pw, pw ≠ "" →
       register later (credentials u pw)
         = (Response 409 (message "Nom d'utilisateur déjà pris."), later))
  ∧ (login later (credentials u "no_password_needed")).1
      = Response 200 (message "Connexion réussie.").
Proof.
  intros Hu Hp He Hune Hnul Hlen Hfree later.
  assert (users later !! u = Some "no_password_needed") as Hrow.
  { eapply writes_users_kept; [apply run_writes|].
    destruct (Part000_saveData_users db req)
      as [Hsame|(u0 & u' & _ & Hu' & _ & Hk & _ & Hacc)].
    - exfalso.
      assert (document_missing req = false) as Hreq.
      { unfold document_missing.
        by rewrite Hu, Hp, He, (js_not_nonempty u Hune). }
      unfold document_missing in Hreq.
      revert Hsame. unfold Part000.saveData.
      rewrite Hreq, Hu, Hp, He, placeholder_insert, Hfree by done.
      intros Hsame.
      assert (users db !! u = Some "no_password_needed") as Hrow; [|congruence].
      rewrite <- Hsame.
      destruct (upsert_user_data _ _ _ _) as [db2|] eqn:Hup.
      + apply upsert_user_data_returned in Hup
          as (? & ? & ? & _ & _ & _ & _ & ->).
        cbn [snd users]. apply lookup_insert_eq.
      + cbn [snd users]. apply lookup_insert_eq.
    - rewrite Hu in Hu'. injection Hu' as <-.
      rewrite varchar_255_fits in Hk by done. injection Hk as <-.
      rewrite Hacc. apply lookup_insert_eq. }
  split; [done|]. split.
  - intros pw Hpne. by apply (register_taken later _ u pw).
  - rewrite (login_present later _ u "no_password_needed") by done.
    by rewrite decide_True.
Qed.

Lemma Part000_placeholder_account_stays_witness :
  let saved := (Part000.saveData empty_db
                  (document_body "global_user" (JArray [JString "x"])
                     (JArray []))).2 in
  users empty_db !! "global_user" = None
  ∧ status (register saved (credentials "global_user" "mine")).1 = 409.
Proof.
  intros saved. split; [reflexivity|].
  destruct (Part000_placeholder_account_stays empty_db
              (document_body "global_user" (JArray [JString "x"]) (JArray []))
              "global_user" (JArray [JString "x"]) (JArray []) []
              eq_refl eq_refl eq_refl ltac:(discriminate) eq_refl
              ltac:(vm_compute; lia) eq_refl) as (_ & Htaken & _).
  change (run part_000
            (Part000.saveData empty_db
               (document_body "global_user" (JArray [JString "x"])
                  (JArray []))).2 [])
    with saved in Htaken.
  by rewrite (Htaken "mine").
Defined.

(** ** What a response says about the store *)

Lemma register_statuses (db : DB) (req : body) :
  (status (register db req).1 = 201
   ∧ ∃ u, username req = Some u ∧ u ≠ "" ∧ has_nul u = false
          ∧ users db !! u = None)
  ∨ (status (register db req).1 ≠ 201 ∧ status (register db req).1 ≠ 200
     ∧ (register db req).2 = db).
Proof.
  destruct (credentials_missing req) eqn:Hreq.
  { right. by rewrite register_missing. }
  apply credentials_present in Hreq as (u & pw & Hu & Hp & Hune & Hpne).
  destruct (has_nul u) eqn:Hnul.
  { right. by rewrite (register_refused db req u pw). }
  destruct (users db !! u) as [stored|] eqn:Hrow.
  { right. by rewrite (register_taken db req u pw) by (by eauto). }
  unfold register.
  rewrite Hu, Hp, (js_not_nonempty u Hune), (js_not_nonempty pw Hpne).
  unfold select_users_by_username. rewrite (text_param_ok u) by done. step.
  rewrite Hrow. cbn [orb length Nat.ltb Nat.leb].
  destruct (insert_users db (Some u) (Some pw)); [|by right].
  left. split; [done|]. by exists u.
Qed.

(** A request that passes the guard of save gets one of two responses. *)
Lemma saveData_present_response (d : deployment) (db : DB) (req : body) :
  document_missing req = false →
  (saveData d db req).1
    = Response 200 (message "Données sauvegardées avec succès.")
  ∨ (saveData d db req).1
    = Response 500 (message "Erreur serveur lors de la sauvegarde des données.").
Proof.
  unfold document_missing. intros Hreq. destruct d; simpl.
  - unfold ServerJs.saveData. rewrite Hreq.
    destruct (upsert_user_data db _ _ _); auto.
  - unfold Part000.saveData. rewrite Hreq.
    destruct (insert_users_on_conflict_do_nothing db _ _) as [db1|]; auto.
    destruct (upsert_user_data db1 _ _ _); auto.
Qed.

Lemma ServerJs_saveData_rejected (db : DB) (req : body) :
  status (ServerJs.saveData db req).1 ≠ 200 → (ServerJs.saveData db req).2 = db.
Proof.
  unfold ServerJs.saveData.
  destruct (js_not (username req) || is_undefined (personnes req)
            || is_undefined (equipes req)); [done|].
  by destruct (upsert_user_data db _ _ _).
Qed.

Lemma ServerJs_saveData_users (db : DB) (req : body) :
  users (ServerJs.saveData db req).2 = users db.
Proof.
  destruct (document_missing req) eqn:Hreq.
  { pose proof (saveData_missing server_js db req Hreq) as Hsame.
    simpl in Hsame. by rewrite Hsame. }
  unfold document_missing in Hreq.
  destruct (document_present req Hreq) as (u0 & p & e & Hu & Hp & He & Hune).
  unfold ServerJs.saveData. rewrite Hreq, Hu, Hp, He.
  destruct (upsert_user_data db _ _ _) as [db'|] eqn:Hup; [|done].
  by apply upsert_user_data_returned in Hup as (? & ? & ? & _ & _ & _ & _ & ->).
Qed.

Lemma DB_eq (db db' : DB) :
  users db' = users db → user_data db' = user_data db → db' = db.
Proof. destruct db, db'. simpl. by intros -> ->. Qed.

(** X6: a request that is answered neither 200 nor 201 leaves the document
    table exactly as it was, in both files, and in [server.js] the account
    table too.  In [part_000] the two statements of save run outside a
    transaction: a save answered 500 either writes nothing or leaves
    behind the placeholder account of its username, which had none. *)
Theorem rejected_requests_keep_documents (d : deployment) (db : DB)
    (r : request) :
  status (handle d db r).1 ≠ 200 → status (handle d db r).1 ≠ 201 →
  user_data (handle d db r).2 = user_data db
  ∧ (d = server_js → (handle d db r).2 = db)
  ∧ ((handle d db r).2 = db
     ∨ ∃ b u0 u,
         d = part_000 ∧ r = POST_saveData b
         ∧ username b = Some u0 ∧ varchar_255 u0 = Returned u
         ∧ users db !! u = None
         ∧ (handle d db r).1
             = Response 500
                 (message "Erreur serveur lors de la sauvegarde des données.")
         ∧ (handle d db r).2
             = Db (<[u := "no_password_needed"]> (users db)) (user_data db)).
Proof.
  intros Hnot200 Hnot201.
  assert (∀ db', db' = db → user_data db' = user_data db) as Hdoc
    by (by intros ? ->).
  destruct r as [b|b|b|param]; simpl in *.
  - destruct (register_statuses db b) as [[Hok _]|(_ & _ & Hsame)]; [done|].
    auto.
  - pose proof (login_unchanged db b). auto.
  - destruct d; simpl in *.
    + pose proof (ServerJs_saveData_rejected db b Hnot200). auto.
    + destruct (saveData_user_data part_000 db b)
        as [[_ Hsame]|(? & ? & ? & ? & ? & ? & _ & _ & _ & _ & _ & _ & _
                       & Hres & _)];
        [|simpl in Hres; by rewrite Hres in Hnot200].
      simpl in Hsame. split; [done|]. split; [done|].
      destruct (Part000_saveData_users db b)
        as [Hacc|(u0 & u & Hreq & Hu & _ & Hk & Hfree & Hacc)].
      * left. by apply DB_eq.
      * right. exists b, u0, u.
        destruct (saveData_present_response part_000 db b Hreq) as [Hres|Hres];
          simpl in Hres; [by rewrite Hres in Hnot200|].
        repeat split; try done.
        apply (DB_eq (Db _ _)); by simpl.
  - pose proof (loadData_unchanged db param). auto.
Qed.

Lemma rejected_requests_keep_documents_witness :
  let db := (register empty_db (credentials "alice" "secret")).2 in
  let r := POST_saveData (document_body "erin" (JArray [JString "x"]) JNull) in
  user_data (handle part_000 db r).2 = user_data db
  ∧ status (handle part_000 db r).1 = 500
  ∧ users (handle part_000 db r).2 !! "erin" = Some "no_password_needed"
  ∧ (handle server_js db (POST_register (credentials "alice" "other"))).2 = db.
Proof.
  intros db r. split; [|split; [|split]].
  - apply (rejected_requests_keep_documents part_000 db r);
      vm_compute; discriminate.
  - reflexivity.
  - reflexivity.
  - apply (rejected_requests_keep_documents server_js db
             (POST_register (credentials "alice" "other")));
      [vm_compute; discriminate|vm_compute; discriminate|reflexivity].
Defined.

(** X7: account rows come from two places only: a register answered 201
    and, in [part_000], a validated save, whether it is answered 200 or
    500, which adds the placeholder row of its username.  The save of
    [server.js] never changes the account table, and login and load change
    nothing. *)
Theorem accounts_created_only_by (d : deployment) (db : DB) (r : request) :
  (users (handle d db r).2 ≠ users db →
   (∃ b, r = POST_register b ∧ status (handle d db r).1 = 201)
   ∨ (d = part_000
      ∧ ∃ b u0 u,
          r = POST_saveData b ∧ username b = Some u0
          ∧ varchar_255 u0 = Returned u ∧ users db !! u = None
          ∧ users (handle d db r).2
              = <[u := "no_password_needed"]> (users db)
          ∧ (status (handle d db r).1 = 200
             ∨ status (handle d db r).1 = 500)))
  ∧ (∀ req, users (ServerJs.saveData db req).2 = users db).
Proof.
  split; [|apply ServerJs_saveData_users].
  intros Hchanged. destruct r as [b|b|b|param]; simpl in *.
  - left. exists b. split; [done|].
    destruct (register_statuses db b) as [[Hok _]|(_ & _ & Hsame)]; [done|].
    by rewrite Hsame in Hchanged.
  - by rewrite login_unchanged in Hchanged.
  - destruct d; simpl in *.
    + by rewrite ServerJs_saveData_users in Hchanged.
    + right. split; [done|].
      destruct (Part000_saveData_users db b)
        as [Hacc|(u0 & u & Hreq & Hu & _ & Hk & Hfree & Hacc)]; [done|].
      exists b, u0, u. repeat split; try done.
      apply (saveData_present_status part_000 db b Hreq).
  - by rewrite loadData_unchanged in Hchanged.
Qed.

Lemma accounts_created_only_by_witness :
  let r := POST_saveData (document_body "global_user" (JObject ∅) (JObject ∅)) in
  users (handle part_000 empty_db r).2 ≠ users empty_db
  ∧ users (handle part_000 empty_db r).2 !! "global_user"
      = Some "no_password_needed".
Proof.
  intros r.
  assert (users (handle part_000 empty_db r).2 ≠ users empty_db) as Hchanged.
  { intros Heq. apply (f_equal (λ m, m !! "global_user")) in Heq.
    vm_compute in Heq. discriminate. }
  split; [exact Hchanged|].
  destruct (proj1 (accounts_created_only_by part_000 empty_db r) Hchanged)
    as [(b & Hr & _)|(_ & b & u0 & u & Hr & Hu & Hk & _ & Hacc & _)];
    [discriminate|].
  injection Hr as <-. injection Hu as <-. injection Hk as <-.
  rewrite Hacc. apply lookup_insert_eq.
Defined.



(** ** Invariants of the reachable states *)

(** X9: every state the server can reach, in either file, keeps the
    foreign key (each document row has an account row), holds no account
    whose username or password is empty, and holds no username or password
    beyond the capacity of its column. *)
Theorem reachable_states_are_consistent (d : deployment) (db : DB) :
  reachable d db →
  foreign_key_ok db ∧ accounts_nonempty db ∧ columns_fit db.
Proof.
  intros Hreach. split; [by eapply reachable_foreign_key_ok|].
  split; [by eapply reachable_accounts_nonempty|].
  by eapply reachable_columns_fit.
Qed.

Lemma reachable_states_are_consistent_witness :
  let db := run part_000 empty_db
              [POST_saveData (document_body "erin" (JArray []) (JArray []));
               POST_register (credentials "alice" "secret")] in
  reachable part_000 db ∧ foreign_key_ok db.
Proof.
  intros db.
  assert (reachable part_000 db) as Hreach by (by eexists).
  split; [exact Hreach|].
  exact (proj1 (reachable_states_are_consistent part_000 db Hreach)).
Defined.

(** ** Registration and documents *)

(** X10: in [server.js], on a state that keeps the foreign key, a
    validated save for a username within 255 characters and without
    U+0000 is answered 200 exactly when the username has an account row
    and the binding of [personnes] and [equipes] returns; without an
    account row it is answered 500 and writes nothing, whatever the
    payload; and after a register of that username a save whose payload
    binds is answered 200. *)
Theorem ServerJs_saveData_needs_account (db : DB) (req : body)
    (u : string) (p e : JSON) :
  foreign_key_ok db →
  username req = Some u → personnes req = Some p → equipes req = Some e →
  u ≠ "" → has_nul u = false → (String.length u ≤ 255)%nat →
  (status (ServerJs.saveData db req).1 = 200 ↔
   is_Some (users db !! u)
   ∧ ∃ p' e', jsonb_param (Some p) = Returned p'
              ∧ jsonb_param (Some e) = Returned e')
  ∧ (users db !! u = None →
     ServerJs.saveData db req
       = (Response 500
            (message "Erreur serveur lors de la sauvegarde des données."), db))
  ∧ (∀ pw p' e', users db !! u = None →
       pw ≠ "" → has_nul pw = false → (String.length pw ≤ 255)%nat →
       jsonb_param (Some p) = Returned p' →
       jsonb_param (Some e) = Returned e' →
       status (ServerJs.saveData (register db (credentials u pw)).2 req).1
         = 200).
Proof.
  intros Hfk Hu Hp He Hune Hnul Hlen.
  assert (users db !! u = None →
          ¬ (is_Some (user_data db !! u) ∨ is_Some (users db !! u))) as Hnone.
  { intros Hfree [Hdoc|Hacc].
    - apply Hfk in Hdoc. rewrite Hfree in Hdoc. by destruct Hdoc.
    - rewrite Hfree in Hacc. by destruct Hacc. }
  assert (document_missing req = false) as Hreq.
  { unfold document_missing. by rewrite Hu, Hp, He, (js_not_nonempty u Hune). }
  split; [|split].
  - split.
    + intros Hok.
      destruct (saveData_user_data server_js db req)
        as [[Hnot _]|(u0 & u' & p0 & e0 & p' & e' & Hu' & _ & Hk & Hp' & He'
                      & Hjp & Hje & _ & _)]; [done|].
      assert (p0 = p) as -> by congruence.
      assert (e0 = e) as -> by congruence.
      split; [|by exists p', e'].
      revert Hok. simpl.
      rewrite (ServerJs_saveData_present db req u p e p' e') by done.
      case_decide as Hkey; [|done]. intros _.
      destruct Hkey as [Hdoc|Hacc]; [by apply Hfk|done].
    + intros (Hacc & p' & e' & Hjp & Hje).
      rewrite (ServerJs_saveData_present db req u p e p' e') by done.
      rewrite decide_True by (by right). done.
  - intros Hfree.
    destruct (saveData_user_data server_js db req)
      as [[Hnot _]|(u0 & u' & p0 & e0 & p' & e' & Hu' & _ & Hk & Hp' & He'
                    & Hjp & Hje & Hres & _)].
    + simpl in Hnot.
      rewrite <- (ServerJs_saveData_rejected db req Hnot) at 2.
      destruct (saveData_present_response server_js db req Hreq) as [Hr|Hr];
        simpl in Hr; [by rewrite Hr in Hnot|].
      rewrite <- Hr. by destruct (ServerJs.saveData db req).
    + assert (p0 = p) as -> by congruence.
      assert (e0 = e) as -> by congruence.
      simpl in Hres. revert Hres.
      rewrite (ServerJs_saveData_present db req u p e p' e') by done.
      by rewrite decide_False by by apply Hnone.
  - intros pw p' e' Hfree Hpne Hnp Hplen Hjp Hje.
    rewrite (register_present db _ u pw) by done. rewrite Hfree.
    rewrite (ServerJs_saveData_present _ req u p e p' e') by done.
    rewrite decide_True; [done|]. right. cbn [snd users].
    rewrite lookup_insert_eq. by eexists.
Qed.

Lemma ServerJs_saveData_needs_account_witness :
  let req := document_body "alice" (JObject {[ "x" := JNumber 1 ]}) JNull in
  status (ServerJs.saveData empty_db req).1 = 500
  ∧ status (ServerJs.saveData
              (register empty_db (credentials "alice" "secret")).2 req).1 = 200.
Proof.
  intros req.
  assert (foreign_key_ok empty_db) as Hfk.
  { intros u. simpl. rewrite lookup_empty. by intros [? [=]]. }
  destruct (ServerJs_saveData_needs_account empty_db req "alice"
              (JObject {[ "x" := JNumber 1 ]}) JNull Hfk eq_refl eq_refl eq_refl
              ltac:(discriminate) eq_refl ltac:(vm_compute; lia))
    as (_ & Hrefused & Hafter).
  split.
  - by rewrite (Hrefused eq_refl).
  - apply (Hafter "secret" (JObject {[ "x" := JNumber 1 ]}) JNull eq_refl);
      [discriminate|reflexivity|vm_compute; lia
      |by apply jsonb_param_kept|reflexivity].
Defined.

(** X11: a register never changes what load returns, for any username;
    and on a state that keeps the foreign key a username that has just
    been registered loads the defaults [{personnes: [], equipes: []}]. *)
Theorem register_then_loadData (db : DB) (req : body) :
  (∀ u, (loadData (register db req).2 u).1 = (loadData db u).1)
  ∧ (∀ u, foreign_key_ok db → username req = Some u →
          status (register db req).1 = 201 →
          (loadData (register db req).2 u).1
            = Response 200 (data (JArray []) (JArray []))).
Proof.
  assert (∀ u, (loadData (register db req).2 u).1 = (loadData db u).1)
    as Hsame.
  { intros u. unfold loadData. destruct (js_not (Some u)); [done|].
    unfold select_user_data. destruct (text_param u) as [u1|]; [|done]. step.
    rewrite register_user_data.
    by destruct (user_data db !! u1). }
  split; [done|]. intros u Hfk Hu Hok. rewrite Hsame.
  destruct (register_statuses db req)
    as [(_ & u' & Hu' & Hune & Hnul & Hfree)|[Hnot _]]; [|done].
  assert (u' = u) as -> by congruence.
  rewrite loadData_present by done.
  destruct (user_data db !! u) as [r|] eqn:Hdoc; [|done].
  assert (is_Some (users db !! u)) as [? ?] by (apply Hfk; by eexists).
  congruence.
Qed.

Lemma register_then_loadData_witness :
  (loadData (register empty_db (credentials "alice" "secret")).2 "alice").1
    = Response 200 (data (JArray []) (JArray [])).
Proof.
  apply (proj2 (register_then_loadData empty_db (credentials "alice" "secret"))).
  - intros u. simpl. rewrite lookup_empty. by intros [? [=]].
  - reflexivity.
  - reflexivity.
Defined.

(** ** Documents of different usernames *)

(** X12: the document of a username changes only through a save answered
    200 whose username, as the key column holds it, is that username, and
    it then holds the two values that the binding of [personnes] and of
    [equipes] of that request returned; register, login, load and the
    saves of other usernames leave it as it is. *)
Theorem documents_changed_only_by_own_save (d : deployment) (db : DB)
    (r : request) (u : string) :
  user_data (handle d db r).2 !! u ≠ user_data db !! u →
  ∃ b u0 p e p' e',
    r = POST_saveData b ∧ username b = Some u0
    ∧ varchar_255 u0 = Returned u
    ∧ personnes b = Some p ∧ equipes b = Some e
    ∧ jsonb_param (Some p) = Returned p'
    ∧ jsonb_param (Some e) = Returned e'
    ∧ status (handle d db r).1 = 200
    ∧ user_data (handle d db r).2 !! u = Some (Row p' e').
Proof.
  intros Hchanged. destruct r as [b|b|b|param]; simpl in *.
  - by rewrite register_user_data in Hchanged.
  - by rewrite login_unchanged in Hchanged.
  - destruct (saveData_user_data d db b)
      as [[_ Hsame]|(u0 & u1 & p & e & p' & e' & Hu & _ & Hk & Hp & He & Hjp
                     & Hje & Hres & Hdoc)].
    + by rewrite Hsame in Hchanged.
    + destruct (decide (u1 = u)) as [->|Hne].
      * exists b, u0, p, e, p', e'.
        rewrite Hres, Hdoc, lookup_insert_eq. by repeat split.
      * by rewrite Hdoc, lookup_insert_ne in Hchanged.
  - by rewrite loadData_unchanged in Hchanged.
Qed.

Lemma documents_changed_only_by_own_save_witness :
  let r := POST_saveData (document_body "erin" (JBool true) JNull) in
  user_data (handle part_000 empty_db r).2 !! "erin"
    = Some (Row (JBool true) JNull).
Proof.
  intros r.
  assert (user_data (handle part_000 empty_db r).2 !! "erin"
          ≠ user_data empty_db !! "erin") as Hchanged
    by (vm_compute; discriminate).
  destruct (documents_changed_only_by_own_save part_000 empty_db r "erin"
              Hchanged)
    as (b & u0 & p & e & p' & e' & Hr & Hu & Hk & Hp & He & Hjp & Hje & _
        & Hdoc).
  injection Hr as <-. injection Hp as <-. injection He as <-.
  injection Hjp as <-. injection Hje as <-. exact Hdoc.
Defined.

(** The binding of a payload either returns for both fields or it does
    not. *)
Lemma payload_cases (p e : JSON) :
  (∃ p' e', jsonb_param (Some p) = Returned p'
            ∧ jsonb_param (Some e) = Returned e')
  ∨ (∀ p' e', ¬ (jsonb_param (Some p) = Returned p'
                 ∧ jsonb_param (Some e) = Returned e')).
Proof.
  destruct (jsonb_param (Some p)) as [p'|]; [|right; by intros ? ? [? ?]].
  destruct (jsonb_param (Some e)) as [e'|]; [|right; by intros ? ? [? ?]].
  left. by exists p', e'.
Qed.

(** A validated save whose username contains U+0000 is answered 500 and
    writes nothing. *)
Lemma saveData_refused (d : deployment) (db : DB) (req : body)
    (u : string) (p e : JSON) :
  username req = Some u → personnes req = Some p → equipes req = Some e →
  u ≠ "" → has_nul u = true →
  saveData d db req
    = (Response 500
         (message "Erreur serveur lors de la sauvegarde des données."), db).
Proof.
  intros Hu Hp He Hune Hnul.
  assert (document_missing req = false) as Hreq.
  { unfold document_missing. by rewrite Hu, Hp, He, (js_not_nonempty u Hune). }
  unfold document_missing in Hreq.
  destruct d; simpl.
  - unfold ServerJs.saveData. rewrite Hreq, Hu, Hp, He.
    unfold upsert_user_data. by rewrite (text_param_refused u).
  - unfold Part000.saveData. rewrite Hreq, Hu, Hp, He.
    unfold insert_users_on_conflict_do_nothing.
    by rewrite (text_param_refused u).
Qed.

(** In [server.js] a validated save whose payload does not bind is
    answered 500 and writes nothing. *)
Lemma ServerJs_saveData_payload_refused (db : DB) (req : body)
    (u : string) (p e : JSON) :
  username req = Some u → personnes req = Some p → equipes req = Some e →
  u ≠ "" →
  (∀ p' e', ¬ (jsonb_param (Some p) = Returned p'
               ∧ jsonb_param (Some e) = Returned e')) →
  ServerJs.saveData db req
    = (Response 500
         (message "Erreur serveur lors de la sauvegarde des données."), db).
Proof.
  intros Hu Hp He Hune Hrefused.
  assert (document_missing req = false) as Hreq.
  { unfold document_missing. by rewrite Hu, Hp, He, (js_not_nonempty u Hune). }
  unfold document_missing in Hreq.
  unfold ServerJs.saveData. rewrite Hreq, Hu, Hp, He.
  destruct (upsert_user_data db _ _ _) as [db'|] eqn:Hup; [|done].
  apply upsert_user_data_returned in Hup
    as (? & p' & e' & _ & _ & Hjp & Hje & _).
  by destruct (Hrefused p' e').
Qed.

(** What a validated save does, as a function of the state it runs on. *)
Lemma saveData_cases (d : deployment) (req : body) (u : string) (p e : JSON) :
  username req = Some u → personnes req = Some p → equipes req = Some e →
  u ≠ "" → (String.length u ≤ 255)%nat →
  (∀ db, saveData d db req
         = (Response 500
              (message "Erreur serveur lors de la sauvegarde des données."),
            db))
  ∨ (d = part_000
     ∧ ∀ db, saveData d db req
             = (Response 500
                  (message "Erreur serveur lors de la sauvegarde des données."),
                Db (match users db !! u with
                    | Some _ => users db
                    | None => <[u := "no_password_needed"]> (users db)
                    end) (user_data db)))
  ∨ (∃ row, d = server_js
       ∧ ∀ db, saveData d db req
               = if decide (is_Some (user_data db !! u)
                            ∨ is_Some (users db !! u))
                 then (Response 200
                         (message "Données sauvegardées avec succès."),
                       Db (users db) (<[u := row]> (user_data db)))
                 else (Response 500
                         (message
                            "Erreur serveur lors de la sauvegarde des données."),
                       db))
  ∨ (∃ row, d = part_000
       ∧ ∀ db, saveData d db req
               = (Response 200 (message "Données sauvegardées avec succès."),
                  Db (match users db !! u with
                      | Some _ => users db
                      | None => <[u := "no_password_needed"]> (users db)
                      end) (<[u := row]> (user_data db)))).
Proof.
  intros Hu Hp He Hune Hlen.
  destruct (has_nul u) eqn:Hnul.
  { left. intros db. by apply (saveData_refused d db req u p e). }
  destruct (payload_cases p e) as [(p' & e' & Hjp & Hje)|Hrefused];
    destruct d.
  - right. right. left. exists (Row p' e'). split; [done|]. intros db.
    by apply (ServerJs_saveData_present db req u p e).
  - right. right. right. exists (Row p' e'). split; [done|]. intros db.
    by apply (Part000_saveData_present db req u p e).
  - left. intros db. by apply (ServerJs_saveData_payload_refused db req u p e).
  - right. left. split; [done|]. intros db.
    by apply (Part000_saveData_refused db req u p e).
Qed.

(** X13: saves for two different usernames (non-empty, within 255
    characters) commute: either order leaves the same tables, and each
    save gets the response it gets when it comes first. *)
Theorem saves_for_different_usernames_commute (d : deployment) (db : DB)
    (req1 req2 : body) (u1 u2 : string) (p1 e1 p2 e2 : JSON) :
  username req1 = Some u1 → personnes req1 = Some p1 → equipes req1 = Some e1 →
  username req2 = Some u2 → personnes req2 = Some p2 → equipes req2 = Some e2 →
  u1 ≠ "" → u2 ≠ "" →
  (String.length u1 ≤ 255)%nat → (String.length u2 ≤ 255)%nat →
  u1 ≠ u2 →
  (saveData d (saveData d db req1).2 req2).2
    = (saveData d (saveData d db req2).2 req1).2
  ∧ (saveData d (saveData d db req1).2 req2).1 = (saveData d db req2).1
  ∧ (saveData d (saveData d db req2).2 req1).1 = (saveData d db req1).1.
Proof.
  intros Hu1 Hp1 He1 Hu2 Hp2 He2 Hne1 Hne2 Hlen1 Hlen2 Hdiff.
  assert (u2 ≠ u1) as Hdiff' by congruence.
  destruct (saveData_cases d req1 u1 p1 e1 Hu1 Hp1 He1 Hne1 Hlen1)
    as [H1|[[Hd1 H1]|[(row1 & Hd1 & H1)|(row1 & Hd1 & H1)]]];
  destruct (saveData_cases d req2 u2 p2 e2 Hu2 Hp2 He2 Hne2 Hlen2)
    as [H2|[[Hd2 H2]|[(row2 & Hd2 & H2)|(row2 & Hd2 & H2)]]];
  try congruence;
  rewrite (H1 db), (H2 db); repeat case_decide; cbn [fst snd];
  rewrite ?H1, ?H2; cbn [fst snd users user_data];
  rewrite ?lookup_insert_ne by done;
  repeat case_decide; cbn [fst snd users user_data]; try done;
  repeat split; try done;
  try (f_equal; by apply insert_insert_ne);
  destruct (users db !! u1) as [pw1|] eqn:Hrow1;
  destruct (users db !! u2) as [pw2|] eqn:Hrow2;
  rewrite ?lookup_insert_ne by done; rewrite ?Hrow1, ?Hrow2; try done;
  f_equal; by apply insert_insert_ne.
Qed.

Lemma saves_for_different_usernames_commute_witness :
  let req1 := document_body "erin" (JObject {[ "x" := JNumber 1 ]}) JNull in
  let req2 := document_body "frank" (JArray []) (JArray [JString "y"]) in
  "erin" ≠ "frank"
  ∧ (saveData part_000 (saveData part_000 empty_db req1).2 req2).2
    = (saveData part_000 (saveData part_000 empty_db req2).2 req1).2.
Proof.
  intros req1 req2.
  assert ("erin" ≠ "frank") as Hdiff by discriminate.
  split; [exact Hdiff|].
  exact (proj1 (saves_for_different_usernames_commute part_000 empty_db
                  req1 req2 "erin" "frank" _ _ _ _
                  eq_refl eq_refl eq_refl eq_refl eq_refl eq_refl
                  ltac:(discriminate) ltac:(discriminate)
                  ltac:(vm_compute; lia) ltac:(vm_compute; lia) Hdiff)).
Defined.

(** ** What the driver makes of arrays and strings *)

(** X14: a validated save whose [personnes] or [equipes] is a non-empty
    array is answered 500 in both files and stores no document: the driver
    sends the array as an array literal, which the JSONB column refuses.
    In [server.js] it writes nothing; in [part_000], for a username within
    255 characters, without U+0000 and without an account, it still leaves
    the placeholder account behind. *)
Theorem saveData_nonempty_array_refused (d : deployment) (db : DB)
    (req : body) (u : string) (p e : JSON) :
  username req = Some u → personnes req = Some p → equipes req = Some e →
  u ≠ "" →
  (∃ x items, p = JArray (x :: items)) ∨ (∃ x items, e = JArray (x :: items)) →
  (saveData d db req).1
    = Response 500 (message "Erreur serveur lors de la sauvegarde des données.")
  ∧ user_data (saveData d db req).2 = user_data db
  ∧ (d = server_js → (saveData d db req).2 = db)
  ∧ (d = part_000 → has_nul u = false → (String.length u ≤ 255)%nat →
     users db !! u = None →
     users (saveData d db req).2 = <[u := "no_password_needed"]> (users db)).
Proof.
  intros Hu Hp He Hune Harray.
  assert (∀ p' e', ¬ (jsonb_param (Some p) = Returned p'
                      ∧ jsonb_param (Some e) = Returned e')) as Hrefused.
  { intros p' e' [Hjp Hje].
    destruct Harray as [(x & items & ->)|(x & items & ->)]; done. }
  assert (document_missing req = false) as Hreq.
  { unfold document_missing. by rewrite Hu, Hp, He, (js_not_nonempty u Hune). }
  destruct (saveData_user_data d db req)
    as [[Hnot Hsame]|(u0 & u' & p0 & e0 & p' & e' & _ & _ & _ & Hp' & He'
                      & Hjp & Hje & _ & _)].
  2: { destruct (Hrefused p' e'). split; congruence. }
  destruct (saveData_present_response d db req Hreq) as [Hres|Hres];
    [by rewrite Hres in Hnot|].
  split; [done|]. split; [done|]. split.
  - intros ->. simpl.
    by rewrite (ServerJs_saveData_payload_refused db req u p e).
  - intros -> Hnul Hlen Hfree. simpl.
    rewrite (Part000_saveData_refused db req u p e) by done.
    by rewrite Hfree.
Qed.

Lemma saveData_nonempty_array_refused_witness :
  let p := JArray [JObject {[ "id" := JNumber 1; "name" := JString "A" ]}] in
  let req := document_body "alice" p (JArray []) in
  status (saveData part_000 empty_db req).1 = 500
  ∧ user_data (saveData part_000 empty_db req).2 = ∅
  ∧ users (saveData part_000 empty_db req).2
      = <[ "alice" := "no_password_needed" ]> ∅.
Proof.
  intros p req.
  destruct (saveData_nonempty_array_refused part_000 empty_db req "alice"
              p (JArray []) eq_refl eq_refl eq_refl ltac:(discriminate)
              (or_introl (ex_intro _ _ (ex_intro _ [] eq_refl))))
    as (Hres & Hdoc & _ & Hacc).
  split; [by rewrite Hres|]. split; [exact Hdoc|].
  apply Hacc; [reflexivity|reflexivity|vm_compute; lia|reflexivity].
Defined.





(** ** Usernames with U+0000 *)

(** X17: a non-empty username that contains U+0000 is refused by every
    statement it is bound to: register, login, save and load for it are
    answered 500 and write nothing, and no state the server can reach
    holds a row under it. *)
Theorem nul_username_refused (d : deployment) (db : DB) (u : string) :
  u ≠ "" → has_nul u = true →
  (∀ pw, pw ≠ "" →
     register db (credentials u pw)
       = (Response 500 (message "Erreur serveur lors de l'inscription."), db))
  ∧ (∀ pw, pw ≠ "" →
       login db (credentials u pw)
         = (Response 500 (message "Erreur serveur lors de la connexion."), db))
  ∧ (∀ p e,
       saveData d db (document_body u p e)
         = (Response 500
              (message "Erreur serveur lors de la sauvegarde des données."),
            db))
  ∧ loadData db u
      = (Response 500
           (message "Erreur serveur lors du chargement des données."), db)
  ∧ (reachable d db → users db !! u = None ∧ user_data db !! u = None).
Proof.
  intros Hune Hnul. split; [|split; [|split; [|split]]].
  - intros pw Hpne. by apply (register_refused db _ u pw).
  - intros pw Hpne. apply (login_refused db _ u pw); auto.
  - intros p e. by apply (saveData_refused d db _ u p e).
  - by apply loadData_refused.
  - intros Hreach.
    assert (users db !! u = None) as Hfree.
    { destruct (users db !! u) as [pw|] eqn:Hrow; [|done].
      destruct (reachable_accounts_nul_free d db Hreach u pw Hrow). congruence. }
    split; [done|].
    destruct (user_data db !! u) as [r|] eqn:Hdoc; [|done].
    assert (is_Some (users db !! u)) as [? ?]
      by (apply (reachable_foreign_key_ok d db Hreach); by eexists).
    congruence.
Qed.

Lemma nul_username_refused_witness :
  username_with_nul ≠ ""
  ∧ status (loadData empty_db username_with_nul).1 = 500.
Proof.
  split; [discriminate|].
  destruct (nul_username_refused part_000 empty_db username_with_nul
              ltac:(discriminate) eq_refl) as (_ & _ & _ & Hload & _).
  by rewrite Hload.
Defined.
